(** * WooCommerce chat assistant: relevance scoring, context assembly and
      conversation management

    A shallow embedding of the TypeScript sources

    - [services/woocommerceService.ts]  (module [WooCommerce]),
    - the [App] component               (module [App]),
    - [services/openaiService.ts]       (module [OpenAI]),
    - [hooks/useChat.ts]                (module [UseChat]),

    followed by the properties proved about them.

    Modelling conventions.
    - A JavaScript string is a [string]: a sequence of code units, here the
      8-bit range (ASCII and Latin-1), on which [toLowerCase], [trim],
      [includes], [split], [substring] and [join] are written out in module
      [JS].
    - A JavaScript number that holds an integer (scores, clock readings in
      milliseconds, HTTP statuses, stock quantities) is a [Z].
    - [async] code is cut at its [await] points: what the outside world
      answers (a clock reading, the outcome of a fetch) is an explicit
      argument, and what the code sends out is returned as a list of events.
    - React state ([useState]) and refs ([useRef]) are the fields of a state
      record; a functional update [setX(prev => f prev)] is [f] applied to the
      field. A callback reads a state variable as the render that made the
      callback had it; where that differs from the latest value and matters
      ([isLoading] in the guards of the chat hook), the value seen is an
      argument of its own. *)

From Stdlib Require Import ZArith List String Ascii Bool Lia.
From Stdlib Require Import Permutation Sorted DecimalString.
Import ListNotations.

Local Open Scope list_scope.
Local Open Scope string_scope.

(* ================================================================== *)
(** * Part I: the embedding *)
(* ================================================================== *)

(** The line feed of the template literals' [\n]. *)
Definition LF : string := String (ascii_of_nat 10) EmptyString.

(** The double quote inside a template literal. *)
Definition DQ : string := String (ascii_of_nat 34) EmptyString.

(** ** The JavaScript built-ins the sources call *)

Module JS.

(** [String.prototype.toLowerCase] on one code unit: A-Z, and the Latin-1
    capitals U+00C0..U+00DE except the multiplication sign U+00D7. *)
Definition lowerChar (c : ascii) : ascii :=
  let n := N_of_ascii c in
  if ((65 <=? n) && (n <=? 90))%N
     || ((192 <=? n) && (n <=? 222) && negb (n =? 215))%N
  then ascii_of_N (n + 32) else c.

Fixpoint toLowerCase (s : string) : string :=
  match s with
  | EmptyString => EmptyString
  | String c s' => String (lowerChar c) (toLowerCase s')
  end.

(** White space as [trim] sees it: TAB, LF, VT, FF, CR, SP and NBSP. *)
Definition isWhiteSpace (c : ascii) : bool :=
  let n := N_of_ascii c in
  (((9 <=? n) && (n <=? 13)) || (n =? 32) || (n =? 160))%N.

Fixpoint trimStart (s : string) : string :=
  match s with
  | EmptyString => EmptyString
  | String c s' => if isWhiteSpace c then trimStart s' else s
  end.

Fixpoint trimEnd (s : string) : string :=
  match s with
  | EmptyString => EmptyString
  | String c s' =>
      match trimEnd s' with
      | EmptyString => if isWhiteSpace c then EmptyString
                       else String c EmptyString
      | r => String c r
      end
  end.

Definition trim (s : string) : string := trimEnd (trimStart s).

(** No white space in front. *)
Definition startsClean (s : string) : Prop :=
  match s with
  | EmptyString => True
  | String c _ => isWhiteSpace c = false
  end.

(** Nothing but white space, the empty string included. *)
Fixpoint whitespaceOnly (s : string) : bool :=
  match s with
  | EmptyString => true
  | String c s' => isWhiteSpace c && whitespaceOnly s'
  end.

(** Truthiness of a string: [Boolean(s)], [!s], [s || t], [s && t]. *)
Definition truthy (s : string) : bool :=
  match s with EmptyString => false | String _ _ => true end.

(** [a || b] on strings. *)
Definition orElse (a b : string) : string := if truthy a then a else b.

(** [s.includes(sub)]: [sub] starts at some position of [s]. *)
Fixpoint includes (s sub : string) : bool :=
  String.prefix sub s
  || match s with
     | EmptyString => false
     | String _ s' => includes s' sub
     end.

(** [s.split(sep)] for a separator of one code unit. *)
Fixpoint split (sep : ascii) (s : string) : list string :=
  match s with
  | EmptyString => [EmptyString]
  | String c s' =>
      if Ascii.eqb c sep then EmptyString :: split sep s'
      else match split sep s' with
           | w :: ws => String c w :: ws
           | [] => [String c EmptyString]
           end
  end.

(** [parts.join(sep)]. *)
Definition join (sep : string) (parts : list string) : string :=
  String.concat sep parts.

(** [s.substring(a, b)]: the code units from [min a b] up to [max a b]. *)
Definition substring (a b : nat) (s : string) : string :=
  String.substring (Nat.min a b) (Nat.max a b - Nat.min a b) s.

(** [String(n)] and [`${n}`] for an integer-valued number. *)
Definition numToString (n : Z) : string :=
  NilZero.string_of_int (Z.to_int n).

(** [Array.prototype.sort(compareFn)]: the sort is stable (ECMAScript
    2019), so for a consistent comparator its result is the one of
    insertion from the right, where an element goes in front of the first
    element it does not compare greater than. *)
Fixpoint insertBy {A : Type} (compareFn : A -> A -> Z) (x : A) (l : list A)
  : list A :=
  match l with
  | [] => [x]
  | y :: l' =>
      if (compareFn x y <=? 0)%Z then x :: y :: l'
      else y :: insertBy compareFn x l'
  end.

Definition sort {A : Type} (compareFn : A -> A -> Z) (l : list A) : list A :=
  fold_right (insertBy compareFn) [] l.

(** The comparator [(a, b) => key(b) - key(a)]. *)
Definition descending {A : Type} (key : A -> Z) (a b : A) : Z :=
  (key b - key a)%Z.

(** [array.slice(0, n)]. *)
Definition slice0 {A : Type} (n : nat) (l : list A) : list A := firstn n l.

(** [s.replace(/<[^>]*>/g, '')]: a [<] opens a match when a [>] follows
    somewhere; the match ends at the first [>]. *)
Fixpoint hasGt (s : string) : bool :=
  match s with
  | EmptyString => false
  | String c s' => Ascii.eqb c ">" || hasGt s'
  end.

Fixpoint stripTagsFrom (inTag : bool) (s : string) : string :=
  match s with
  | EmptyString => EmptyString
  | String c s' =>
      if inTag then
        if Ascii.eqb c ">" then stripTagsFrom false s'
        else stripTagsFrom true s'
      else if Ascii.eqb c "<" && hasGt s' then stripTagsFrom true s'
      else String c (stripTagsFrom false s')
  end.

Definition stripTags (s : string) : string := stripTagsFrom false s.

(** What a [catch] clause can receive: an [Error] object (or an instance of
    a subclass, [DOMException] included) with its [name] and [message], or
    any other thrown value. *)
Inductive Thrown : Type :=
| ErrorObject (name message : string)
| OtherValue.

(** [new Error(message)]. *)
Definition newError (message : string) : Thrown := ErrorObject "Error" message.

(** The outcome of awaiting a promise. *)
Inductive Settled (A : Type) : Type :=
| Fulfilled (value : A)
| Rejected (reason : Thrown).
Arguments Fulfilled {A} value.
Arguments Rejected {A} reason.

End JS.

(** ** services/woocommerceService.ts *)

Module WooCommerce.

Record Category : Type := {
  cat_id : Z;
  cat_name : string;
  cat_slug : string
}.

Record Image : Type := {
  img_id : Z;
  img_src : string;
  img_name : string;
  img_alt : string
}.

Record Attribute : Type := {
  attr_id : Z;
  attr_name : string;
  attr_options : list string
}.

Record WooCommerceProduct : Type := {
  id : Z;
  name : string;
  slug : string;
  permalink : string;
  type : string;
  status : string;
  description : string;
  short_description : string;
  sku : string;
  price : string;
  regular_price : string;
  sale_price : string;
  on_sale : bool;
  stock_status : string;
  stock_quantity : option Z;
  categories : list Category;
  images : list Image;
  attributes : list Attribute
}.

(** [formatProductForAI]. *)
Definition formatProductForAI (product : WooCommerceProduct) : string :=
  let categories := JS.join ", " (map cat_name product.(categories)) in
  let inStock := String.eqb product.(stock_status) "instock" in
  let stockInfo :=
    if inStock then
      match product.(stock_quantity) with
      | Some q => if (q =? 0)%Z then "In stock"
                  else JS.numToString q ++ " in stock"
      | None => "In stock"
      end
    else "Out of stock" in
  "Product: " ++ product.(name) ++ LF ++
  "Price: $" ++ product.(price)
    ++ (if product.(on_sale)
        then " (Sale from $" ++ product.(regular_price) ++ ")" else EmptyString) ++ LF ++
  "SKU: " ++ product.(sku) ++ LF ++
  "Categories: " ++ categories ++ LF ++
  "Stock: " ++ stockInfo ++ LF ++
  "Description: " ++ JS.stripTags product.(short_description) ++ LF ++
  "Link: " ++ product.(permalink).

(** [products.map((product, index) => `${index + 1}. ${...}`)]. *)
Fixpoint numberFrom (index : nat) (products : list WooCommerceProduct)
  : list string :=
  match products with
  | [] => []
  | product :: rest =>
      (JS.numToString (Z.of_nat index + 1) ++ ". "
         ++ formatProductForAI product)
        :: numberFrom (S index) rest
  end.

(** [formatProductsForAI]. *)
Definition formatProductsForAI (products : list WooCommerceProduct) : string :=
  if (List.length products =? 0)%nat then "No products found."
  else JS.join (LF ++ LF) (numberFrom 0 products).

End WooCommerce.

(** ** The App component: relevance scorer and context assembler *)

Module App.
Import WooCommerce.

(** [query.toLowerCase().split(' ').filter(word => word.length > 2)]. *)
Definition keywordsOf (query : string) : list string :=
  let queryLower := JS.toLowerCase query in
  filter (fun word => (2 <? String.length word)%nat) (JS.split " " queryLower).

(** The searchable text of a product. *)
Definition productText (product : WooCommerceProduct) : string :=
  JS.toLowerCase
    (product.(name) ++ " " ++ product.(description) ++ " "
       ++ product.(short_description) ++ " "
       ++ JS.join " " (map cat_name product.(categories))).

(** The body of [keywords.forEach]: the new value of [score]. *)
Definition scoreKeyword (product : WooCommerceProduct) (score : Z)
  (keyword : string) : Z :=
  let score :=
    if JS.includes (productText product) keyword then (score + 1)%Z
    else score in
  let score :=
    if JS.includes (JS.toLowerCase product.(name)) keyword then (score + 3)%Z
    else score in
  score.

(** [let score = 0; keywords.forEach(...)]. *)
Definition scoreOf (keywords : list string) (product : WooCommerceProduct) : Z :=
  fold_left (scoreKeyword product) keywords 0%Z.

(** The elements of [scoredProducts]: [{ product, score }]. *)
Record Scored : Type := {
  product : WooCommerceProduct;
  score : Z
}.

(** [findRelevantProducts], over the [products] state of the component. *)
Definition findRelevantProducts (products : list WooCommerceProduct)
  (query : string) : list WooCommerceProduct :=
  if (List.length products =? 0)%nat then []
  else
    let keywords := keywordsOf query in
    let scoredProducts :=
      map (fun product =>
             {| product := product; score := scoreOf keywords product |})
          products in
    map product
      (JS.slice0 5
         (JS.sort (fun a b => (b.(score) - a.(score))%Z)
            (filter (fun item => (0 <? item.(score))%Z) scoredProducts))).

(** The line of one product in the context block. *)
Definition productLine (p : WooCommerceProduct) : string :=
  "- " ++ p.(name) ++ ": "
    ++ JS.orElse p.(short_description) (JS.substring 0 100 p.(description))
    ++ " (Price: $" ++ p.(price) ++ ", Stock: " ++ p.(stock_status) ++ ")".

Definition noProductsFound : string :=
  LF ++ LF ++
  "No specific products found matching your query, but I can help with general information.".

Definition relevantHeader : string :=
  LF ++ LF ++ "Relevant products from our catalog:" ++ LF.

(** [productContext] of [handleSendMessage]. *)
Definition productContext (relevantProducts : list WooCommerceProduct) : string :=
  if (0 <? List.length relevantProducts)%nat
  then relevantHeader ++ JS.join LF (map productLine relevantProducts)
  else noProductsFound.

(** The context block [handleSendMessage] assembles for a user message. *)
Definition assembleContext (products : list WooCommerceProduct)
  (userMessage : string) : string :=
  productContext (findRelevantProducts products userMessage).

Definition systemPromptPreamble : string :=
  "You are a helpful shopping assistant for a WooCommerce store. You have access to the store's product catalog and can help customers find products, answer questions about them, and provide recommendations. Be friendly, concise, and helpful. When discussing products, mention their key features and prices.".

(** [systemPrompt] of [handleSendMessage]. *)
Definition systemPrompt (products : list WooCommerceProduct)
  (userMessage : string) : string :=
  systemPromptPreamble ++ assembleContext products userMessage.

End App.

(** ** config/openai.ts and services/openaiService.ts *)

Module OpenAI.
Import WooCommerce.

Inductive Role : Type := system | user | assistant.

Definition Role_eqb (a b : Role) : bool :=
  match a, b with
  | system, system | user, user | assistant, assistant => true
  | _, _ => false
  end.

Record ChatMessage : Type := {
  role : Role;
  content : string
}.

Record OpenAIConfig : Type := {
  apiKey : string;
  model : string;
  maxTokens : Z;
  temperature : Z * Z          (* the decimal 0.7 as 7 / 10 *)
}.

(** [openAIConfig], for the key the environment provides. *)
Definition openAIConfig (VITE_OPENAI_API_KEY : string) : OpenAIConfig :=
  {| apiKey := JS.orElse VITE_OPENAI_API_KEY EmptyString;
     model := "gpt-4o-mini";
     maxTokens := 1000;
     temperature := (7, 10)%Z |}.

Definition validateOpenAIConfig (cfg : OpenAIConfig) : bool :=
  JS.truthy cfg.(apiKey).

Definition SYSTEM_PROMPT : string :=
  "You are a helpful e-commerce assistant for a WooCommerce store. Your role is to:" ++ LF ++
  "- Help customers find products based on their needs" ++ LF ++
  "- Answer questions about product details, pricing, and availability" ++ LF ++
  "- Provide recommendations based on customer preferences" ++ LF ++
  "- Assist with general store information" ++ LF ++
  LF ++
  "When answering:" ++ LF ++
  "- Be friendly, professional, and concise" ++ LF ++
  "- Use the product information provided to give accurate answers" ++ LF ++
  "- If you don't have specific information, be honest about it" ++ LF ++
  "- Always prioritize customer satisfaction" ++ LF ++
  "- Format prices clearly with currency symbols" ++ LF ++
  "- Mention stock availability when relevant".

Record ChatCompletionRequest : Type := {
  req_model : string;
  req_messages : list ChatMessage;
  req_max_tokens : Z;
  req_temperature : Z * Z
}.

(** What the service sends out. *)
Inductive Event : Type :=
| GetProducts (per_page : Z) (search : option string)
| PostCompletion (body : ChatCompletionRequest).

(** The body of a response that is not [ok], as [response.json()] and
    [errorData.error.message] see it. *)
Inductive ErrorBody : Type :=
| BodyUnreadable                       (* [response.json()] rejects *)
| BodyWithoutError (engineText : string) (* no [error] member: a TypeError *)
| BodyError (message : string).

(** What [fetch(OPENAI_API_URL, ...)] and the reading of its body answer.
    A body that was read is taken to be as [ChatCompletionResponse] types it,
    but for a missing first choice. A first choice without [message], for
    which the source pushes [undefined] onto the history before it throws on
    [.content], is not among the cases. *)
Inductive CompletionResponse : Type :=
| FetchRejected (reason : JS.Thrown)
| NotOk (status : Z) (body : ErrorBody)
| OkUnreadable (reason : JS.Thrown)    (* [response.json()] rejects *)
| OkNoChoice (engineText : string)     (* [data.choices[0]] is undefined *)
| OkChoice (message : ChatMessage).    (* [data.choices[0].message] *)

(** The fields of the [OpenAIService] object. *)
Record OpenAIService : Type := {
  conversationHistory : list ChatMessage;
  productCache : list WooCommerceProduct;
  productCacheTime : Z
}.

Definition CACHE_DURATION : Z := 5 * 60 * 1000.

Definition systemMessage : ChatMessage :=
  {| role := system; content := SYSTEM_PROMPT |}.

(** [initializeConversation]. *)
Definition initializeConversation (this : OpenAIService) : OpenAIService :=
  {| conversationHistory := [systemMessage];
     productCache := this.(productCache);
     productCacheTime := this.(productCacheTime) |}.

(** The object after its constructor has run. *)
Definition newOpenAIService : OpenAIService :=
  initializeConversation
    {| conversationHistory := []; productCache := []; productCacheTime := 0 |}.

Definition unavailable : string :=
  "Product information is currently unavailable.".

(** [getProductContext]: [now] is the reading of [Date.now()], [catalog]
    what [wooCommerceService.fetchProducts] settles to if it is called. *)
Definition getProductContext (now : Z)
  (catalog : JS.Settled (list WooCommerceProduct)) (this : OpenAIService)
  : string * OpenAIService * list Event :=
  if (List.length this.(productCache) =? 0)%nat
     || (now - this.(productCacheTime) >? CACHE_DURATION)%Z
  then
    match catalog with
    | JS.Fulfilled fetched =>
        let this' :=
          {| conversationHistory := this.(conversationHistory);
             productCache := fetched;
             productCacheTime := now |} in
        (formatProductsForAI this'.(productCache), this',
         [GetProducts 50 None])
    | JS.Rejected _ => (unavailable, this, [GetProducts 50 None])
    end
  else (formatProductsForAI this.(productCache), this, []).

(** [enhanceMessageWithContext]. *)
Definition enhanceMessageWithContext (userMessage : string) (now : Z)
  (catalog : JS.Settled (list WooCommerceProduct)) (this : OpenAIService)
  : string * OpenAIService * list Event :=
  let '(productContext, this', events) := getProductContext now catalog this in
  ("Available Products:" ++ LF ++ productContext ++ LF ++ LF
     ++ "Customer Question: " ++ userMessage,
   this', events).

Definition push (message : ChatMessage) (this : OpenAIService) : OpenAIService :=
  {| conversationHistory := this.(conversationHistory) ++ [message];
     productCache := this.(productCache);
     productCacheTime := this.(productCacheTime) |}.

Definition notConfigured : string :=
  "OpenAI API key is not configured. Please set VITE_OPENAI_API_KEY in your environment variables.".

(** The error thrown for a response that is not [ok]. *)
Definition notOkError (status : Z) (body : ErrorBody) : JS.Thrown :=
  match body with
  | BodyUnreadable => JS.newError "An unknown error occurred"
  | BodyWithoutError engineText => JS.ErrorObject "TypeError" engineText
  | BodyError message =>
      JS.newError
        (JS.orElse message ("HTTP error! status: " ++ JS.numToString status))
  end.

(** [sendMessage]; its [catch] logs and throws the error again. *)
Definition sendMessage (cfg : OpenAIConfig) (userMessage : string)
  (includeProductContext : bool) (now : Z)
  (catalog : JS.Settled (list WooCommerceProduct))
  (reply : CompletionResponse) (this : OpenAIService)
  : JS.Settled string * OpenAIService * list Event :=
  if negb (validateOpenAIConfig cfg)
  then (JS.Rejected (JS.newError notConfigured), this, [])
  else
    let '(messageContent, this1, events1) :=
      if includeProductContext
      then enhanceMessageWithContext userMessage now catalog this
      else (userMessage, this, []) in
    let userMessageObj := {| role := user; content := messageContent |} in
    let this2 := push userMessageObj this1 in
    let requestBody :=
      {| req_model := cfg.(model);
         req_messages := this2.(conversationHistory);
         req_max_tokens := cfg.(maxTokens);
         req_temperature := cfg.(temperature) |} in
    let events := (events1 ++ [PostCompletion requestBody])%list in
    match reply with
    | FetchRejected reason => (JS.Rejected reason, this2, events)
    | NotOk status body => (JS.Rejected (notOkError status body), this2, events)
    | OkUnreadable reason => (JS.Rejected reason, this2, events)
    | OkNoChoice engineText =>
        (JS.Rejected (JS.ErrorObject "TypeError" engineText), this2, events)
    | OkChoice assistantMessage =>
        (JS.Fulfilled assistantMessage.(content),
         push assistantMessage this2, events)
    end.

(** [searchProductsAndRespond]: [found] is what
    [wooCommerceService.searchProducts] settles to. *)
Definition searchProductsAndRespond (cfg : OpenAIConfig) (searchQuery : string)
  (found : JS.Settled (list WooCommerceProduct))
  (reply : CompletionResponse) (this : OpenAIService)
  : JS.Settled string * OpenAIService * list Event :=
  let search := GetProducts 10 (Some searchQuery) in
  match found with
  | JS.Rejected reason => (JS.Rejected reason, this, [search])
  | JS.Fulfilled products =>
      let message :=
        if (List.length products =? 0)%nat then
          "I searched for " ++ DQ ++ searchQuery ++ DQ
            ++ " but couldn't find any matching products. Can you help me find what I'm looking for?"
        else
          "I found " ++ JS.numToString (Z.of_nat (List.length products))
            ++ " product(s) matching " ++ DQ ++ searchQuery ++ DQ ++ ":"
            ++ LF ++ LF ++ formatProductsForAI products ++ LF ++ LF
            ++ "Please provide a helpful response about these products." in
      let '(result, this', events) :=
        sendMessage cfg message false 0%Z (JS.Rejected JS.OtherValue) reply this in
      (result, this', search :: events)
  end.

(** [clearConversation]. *)
Definition clearConversation (this : OpenAIService) : OpenAIService :=
  initializeConversation this.

(** [getConversationHistory]. *)
Definition getConversationHistory (this : OpenAIService) : list ChatMessage :=
  filter (fun msg => negb (Role_eqb msg.(role) system)) this.(conversationHistory).

(** [refreshProductCache]: [now] is read after the fetch has settled. *)
Definition refreshProductCache (catalog : JS.Settled (list WooCommerceProduct))
  (now : Z) (this : OpenAIService)
  : JS.Settled unit * OpenAIService * list Event :=
  match catalog with
  | JS.Fulfilled fetched =>
      (JS.Fulfilled tt,
       {| conversationHistory := this.(conversationHistory);
          productCache := fetched;
          productCacheTime := now |},
       [GetProducts 50 None])
  | JS.Rejected reason => (JS.Rejected reason, this, [GetProducts 50 None])
  end.

(** One call of a public method, with what the outside world answers. *)
Inductive Call : Type :=
| CallSendMessage (userMessage : string) (includeProductContext : bool)
    (now : Z) (catalog : JS.Settled (list WooCommerceProduct))
    (reply : CompletionResponse)
| CallSearchProductsAndRespond (searchQuery : string)
    (found : JS.Settled (list WooCommerceProduct)) (reply : CompletionResponse)
| CallClearConversation
| CallRefreshProductCache (catalog : JS.Settled (list WooCommerceProduct))
    (now : Z).

(** The object and the events after a call. *)
Definition run (cfg : OpenAIConfig) (call : Call) (this : OpenAIService)
  : OpenAIService * list Event :=
  match call with
  | CallSendMessage userMessage includeProductContext now catalog reply =>
      let '(_, this', events) :=
        sendMessage cfg userMessage includeProductContext now catalog reply this in
      (this', events)
  | CallSearchProductsAndRespond searchQuery found reply =>
      let '(_, this', events) :=
        searchProductsAndRespond cfg searchQuery found reply this in
      (this', events)
  | CallClearConversation => (clearConversation this, [])
  | CallRefreshProductCache catalog now =>
      let '(_, this', events) := refreshProductCache catalog now this in
      (this', events)
  end.

(** The states of the service: the fresh object, and what calls make of it. *)
Inductive reachable (cfg : OpenAIConfig) : OpenAIService -> Prop :=
| reachable_new : reachable cfg newOpenAIService
| reachable_run : forall this call,
    reachable cfg this -> reachable cfg (fst (run cfg call this)).

(** The conversation window starts with the system instruction. *)
Definition headed (this : OpenAIService) : Prop :=
  hd_error this.(conversationHistory) = Some systemMessage.

(** Every completion request among the events starts with it too. *)
Definition requestsHeaded (events : list Event) : Prop :=
  forall body, In (PostCompletion body) events ->
    hd_error body.(req_messages) = Some systemMessage.

End OpenAI.

(** ** hooks/useChat.ts *)

Module UseChat.
Import WooCommerce.

Inductive Role : Type := user | assistant.

Record Message : Type := {
  id : string;
  role : Role;
  content : string;
  timestamp : Z
}.

(** The two clock readings taken while one message is built:
    [Date.now()] for the id and [new Date()] for the timestamp. *)
Record Clock : Type := {
  dateNow : Z;
  newDate : Z
}.

(** The arguments of one [openAIService.getChatCompletion] call; the signal
    is the one of controller [req_signal]. *)
Record Request : Type := {
  req_content : string;
  req_products : list WooCommerceProduct;
  req_signal : nat
}.

(** The state of the hook. The [AbortController] objects are numbered in the
    order of their creation: [controllers] counts those created so far,
    [abortedControllers] lists those whose [abort()] has been called, and
    [abortControllerRef] holds one of them, or [null]. *)
Record State : Type := {
  messages : list Message;
  isLoading : bool;
  error : option string;
  lastUserMessageRef : string;
  abortControllerRef : option nat;
  controllers : nat;
  abortedControllers : list nat
}.

(** The hook at its first render. *)
Definition initial : State :=
  {| messages := [];
     isLoading := false;
     error := None;
     lastUserMessageRef := EmptyString;
     abortControllerRef := None;
     controllers := 0;
     abortedControllers := [] |}.

(** [controller.abort()] for controller [c]. *)
Definition abort (c : nat) (abortedSoFar : list nat) : list nat :=
  c :: abortedSoFar.

(** [controller.signal.aborted] for controller [c]. *)
Definition aborted (c : nat) (st : State) : bool :=
  existsb (Nat.eqb c) st.(abortedControllers).

(** [if (ref.current) ref.current.abort()]. *)
Definition abortCurrent (ref : option nat) (abortedSoFar : list nat)
  : list nat :=
  match ref with
  | Some c => abort c abortedSoFar
  | None => abortedSoFar
  end.

(** [sendMessage] up to its [await]: [None] when the guard returns, else the
    state at the [await] and the request under way. *)
Definition sendMessage_begin (products : list WooCommerceProduct)
  (content : string) (clock : Clock) (st : State) : option (State * Request) :=
  if negb (JS.truthy (JS.trim content)) || st.(isLoading) then None
  else
    let abortedSoFar :=
      abortCurrent st.(abortControllerRef) st.(abortedControllers) in
    let c := st.(controllers) in
    let userMessage :=
      {| id := "user-" ++ JS.numToString clock.(dateNow);
         role := user;
         content := JS.trim content;
         timestamp := clock.(newDate) |} in
    Some ({| messages := (st.(messages) ++ [userMessage])%list;
             isLoading := true;
             error := None;
             lastUserMessageRef := JS.trim content;
             abortControllerRef := Some c;
             controllers := S c;
             abortedControllers := abortedSoFar |},
          {| req_content := JS.trim content;
             req_products := products;
             req_signal := c |}).

(** [err instanceof Error && err.name === 'AbortError']. *)
Definition isAbortError (err : JS.Thrown) : bool :=
  match err with
  | JS.ErrorObject name _ => String.eqb name "AbortError"
  | JS.OtherValue => false
  end.

(** [err instanceof Error ? err.message : 'Failed to get response from AI']. *)
Definition errorMessageOf (err : JS.Thrown) : string :=
  match err with
  | JS.ErrorObject _ message => message
  | JS.OtherValue => "Failed to get response from AI"
  end.

(** [sendMessage] from its [await] on, [finally] included: [outcome] is what
    the awaited promise settles to. *)
Definition sendMessage_settle (outcome : JS.Settled string) (clock : Clock)
  (st : State) : State :=
  let '(messages', error') :=
    match outcome with
    | JS.Fulfilled response =>
        let assistantMessage :=
          {| id := "assistant-" ++ JS.numToString clock.(dateNow);
             role := assistant;
             content := response;
             timestamp := clock.(newDate) |} in
        ((st.(messages) ++ [assistantMessage])%list, None)
    | JS.Rejected err =>
        if isAbortError err then (st.(messages), st.(error))
        else
          let errorMessage := errorMessageOf err in
          let errorChatMessage :=
            {| id := "error-" ++ JS.numToString clock.(dateNow);
               role := assistant;
               content := "I apologize, but I encountered an error: "
                            ++ errorMessage ++ ". Please try again.";
               timestamp := clock.(newDate) |} in
          ((st.(messages) ++ [errorChatMessage])%list, Some errorMessage)
    end in
  {| messages := messages';
     isLoading := false;
     error := error';
     lastUserMessageRef := st.(lastUserMessageRef);
     abortControllerRef := None;
     controllers := st.(controllers);
     abortedControllers := st.(abortedControllers) |}.

(** A whole [sendMessage] call that nothing else interleaves with: the final
    state and the requests made. *)
Definition sendMessage (products : list WooCommerceProduct) (content : string)
  (clock : Clock) (outcome : JS.Settled string) (clock' : Clock) (st : State)
  : State * list Request :=
  match sendMessage_begin products content clock st with
  | None => (st, [])
  | Some (st', request) => (sendMessage_settle outcome clock' st', [request])
  end.

(** The functional update of [retryLastMessage]. *)
Definition dropLastAssistant (prev : list Message) : list Message :=
  match nth_error prev (List.length prev - 1) with
  | Some lastMessage =>
      match lastMessage.(role) with
      | assistant => firstn (List.length prev - 1) prev
      | user => prev
      end
  | None => prev
  end.

Definition setMessages (f : list Message -> list Message) (st : State) : State :=
  {| messages := f st.(messages);
     isLoading := st.(isLoading);
     error := st.(error);
     lastUserMessageRef := st.(lastUserMessageRef);
     abortControllerRef := st.(abortControllerRef);
     controllers := st.(controllers);
     abortedControllers := st.(abortedControllers) |}.

(** [retryLastMessage] up to the [await] inside the [sendMessage] it calls. *)
Definition retryLastMessage_begin (products : list WooCommerceProduct)
  (clock : Clock) (st : State) : option (State * Request) :=
  if JS.truthy st.(lastUserMessageRef) && negb st.(isLoading) then
    sendMessage_begin products st.(lastUserMessageRef) clock
      (setMessages dropLastAssistant st)
  else None.


(** [clearMessages]. *)
Definition clearMessages (st : State) : State :=
  {| messages := [];
     isLoading := st.(isLoading);
     error := None;
     lastUserMessageRef := EmptyString;
     abortControllerRef := None;
     controllers := st.(controllers);
     abortedControllers :=
       abortCurrent st.(abortControllerRef) st.(abortedControllers) |}.

(** The guards of [sendMessage] and [retryLastMessage] read [isLoading] as
    the render that made the callback had it ([useCallback] with [isLoading]
    among its dependencies); the rest of what they read and write goes
    through refs and functional updates, which are always the latest.
    [seeing seen st] is the state as it looks to a callback whose render had
    [isLoading = seen]. The callbacks of the first render see [false], so a
    caller that keeps them, or calls one twice before the next render, makes
    calls that see [false] whatever the flag has become. *)
Definition seeing (seen : bool) (st : State) : State :=
  {| messages := st.(messages);
     isLoading := seen;
     error := st.(error);
     lastUserMessageRef := st.(lastUserMessageRef);
     abortControllerRef := st.(abortControllerRef);
     controllers := st.(controllers);
     abortedControllers := st.(abortedControllers) |}.

(** What can happen to the hook, one synchronous stretch at a time.
    [Submit] and [Retry] are calls through the callbacks of the latest
    render, which see the flag as it is; [StaleSubmit] and [StaleRetry] are
    calls through callbacks that see [isLoading = false]. (A call that sees
    [true] returns at its guard and changes nothing.) *)
Inductive Action : Type :=
| Submit (content : string) (clock : Clock)
| Settle (outcome : JS.Settled string) (clock : Clock)
| Retry (clock : Clock)
| Clear
| StaleSubmit (content : string) (clock : Clock)
| StaleRetry (clock : Clock).

Definition step (products : list WooCommerceProduct) (a : Action) (st : State)
  : State :=
  match a with
  | Submit content clock =>
      match sendMessage_begin products content clock st with
      | Some (st', _) => st'
      | None => st
      end
  | Settle outcome clock => sendMessage_settle outcome clock st
  | Retry clock =>
      match retryLastMessage_begin products clock st with
      | Some (st', _) => st'
      | None => st
      end
  | Clear => clearMessages st
  | StaleSubmit content clock =>
      match sendMessage_begin products content clock (seeing false st) with
      | Some (st', _) => st'
      | None => st
      end
  | StaleRetry clock =>
      match retryLastMessage_begin products clock (seeing false st) with
      | Some (st', _) => st'
      | None => st
      end
  end.

(** The states of the hook: the first render, and what actions make of it. *)
Inductive reachable (products : list WooCommerceProduct) : State -> Prop :=
| reachable_initial : reachable products initial
| reachable_step : forall st a,
    reachable products st -> reachable products (step products a st).

(** The hook together with the requests it awaits, oldest first. A call
    that gets past its guard puts a request under way, whether or not one
    is under way already; each request settles once, in any order;
    [clearMessages] can come at any time. The first index tells whether some
    call of the run got past its guard on a flag older than the state's,
    that is, while [isLoading] was set. *)
Inductive live (products : list WooCommerceProduct)
  : bool -> State -> list Request -> Prop :=
| live_initial : live products false initial []
| live_send : forall stale st pending content clock st' request,
    live products stale st pending ->
    sendMessage_begin products content clock (seeing false st)
    = Some (st', request) ->
    live products (stale || st.(isLoading)) st' (pending ++ [request])
| live_retry : forall stale st pending clock st' request,
    live products stale st pending ->
    retryLastMessage_begin products clock (seeing false st)
    = Some (st', request) ->
    live products (stale || st.(isLoading)) st' (pending ++ [request])
| live_settle : forall stale st before request after outcome clock,
    live products stale st (before ++ request :: after) ->
    live products stale (sendMessage_settle outcome clock st) (before ++ after)
| live_clear : forall stale st pending,
    live products stale st pending ->
    live products stale (clearMessages st) pending.

(** The hook knows the requests it awaits: none and it is idle with an empty
    handle, or one and it is loading, the controller of the request being the
    one it holds or one aborted before. *)
Definition tracked (st : State) (pending : list Request) : Prop :=
  match pending with
  | [] => st.(isLoading) = false /\ st.(abortControllerRef) = None
  | [request] =>
      st.(isLoading) = true
      /\ (st.(abortControllerRef) = Some request.(req_signal)
          \/ aborted request.(req_signal) st = true)
  | _ :: _ :: _ => False
  end.

End UseChat.

(** ** Sample data: a small catalog *)

Module Scenario.
Import WooCommerce.

Definition accessories : Category :=
  {| cat_id := 7; cat_name := "Accessories"; cat_slug := "accessories" |}.

Definition wirelessMouse : WooCommerceProduct :=
  {| id := 101; name := "Wireless Mouse"; slug := "wireless-mouse";
     permalink := "https://shop.example/product/wireless-mouse";
     type := "simple"; status := "publish";
     description := "<p>Ergonomic optical pointer with a 2.4 GHz receiver.</p>";
     short_description := "Ergonomic optical pointer";
     sku := "WM-1"; price := "29.99"; regular_price := "29.99";
     sale_price := EmptyString; on_sale := false;
     stock_status := "instock"; stock_quantity := Some 12%Z;
     categories := [accessories]; images := []; attributes := [] |}.

Definition usbCable : WooCommerceProduct :=
  {| id := 102; name := "USB Cable"; slug := "usb-cable";
     permalink := "https://shop.example/product/usb-cable";
     type := "simple"; status := "publish";
     description := "Braided cable, long enough to reach past a mouse pad.";
     short_description := EmptyString;
     sku := "UC-1"; price := "9.50"; regular_price := "12.00";
     sale_price := "9.50"; on_sale := true;
     stock_status := "instock"; stock_quantity := None;
     categories := [accessories]; images := []; attributes := [] |}.

Definition wirelessMousePad : WooCommerceProduct :=
  {| id := 103; name := "Wireless Mouse Pad"; slug := "wireless-mouse-pad";
     permalink := "https://shop.example/product/wireless-mouse-pad";
     type := "simple"; status := "publish";
     description := "A pad that charges what rests on it.";
     short_description := "Charging pad";
     sku := "WP-1"; price := "19.00"; regular_price := "19.00";
     sale_price := EmptyString; on_sale := false;
     stock_status := "outofstock"; stock_quantity := Some 0%Z;
     categories := []; images := []; attributes := [] |}.

Definition deskLamp : WooCommerceProduct :=
  {| id := 104; name := "Desk Lamp"; slug := "desk-lamp";
     permalink := "https://shop.example/product/desk-lamp";
     type := "simple"; status := "publish";
     description := "Warm light for late evenings.";
     short_description := "Warm light";
     sku := "DL-1"; price := "35.00"; regular_price := "35.00";
     sale_price := EmptyString; on_sale := false;
     stock_status := "instock"; stock_quantity := Some 3%Z;
     categories := []; images := []; attributes := [] |}.

Definition cfg : OpenAI.OpenAIConfig := OpenAI.openAIConfig "sk-test".

Definition sampleReply : OpenAI.CompletionResponse :=
  OpenAI.OkChoice
    {| OpenAI.role := OpenAI.assistant;
       OpenAI.content := "We have a wireless mouse." |}.

(** The service after one answered question. *)
Definition afterOneTurn : OpenAI.OpenAIService :=
  fst (OpenAI.run cfg
         (OpenAI.CallSendMessage "Any mouse?" true 1765133457841
            (JS.Fulfilled [wirelessMouse]) sampleReply)
         OpenAI.newOpenAIService).

(** A service whose cache was filled at 1000 ms. *)
Definition staleService : OpenAI.OpenAIService :=
  {| OpenAI.conversationHistory := [OpenAI.systemMessage];
     OpenAI.productCache := [deskLamp];
     OpenAI.productCacheTime := 1000 |}.

Definition noon : UseChat.Clock :=
  {| UseChat.dateNow := 1765133457841; UseChat.newDate := 1765133457841 |}.

Definition afterNoon : UseChat.Clock :=
  {| UseChat.dateNow := 1765133458900; UseChat.newDate := 1765133458901 |}.

Definition catalog : list WooCommerceProduct := [wirelessMouse; usbCable].

(** The hook while its first question is under way. *)
Definition inFlight : UseChat.State :=
  UseChat.step catalog (UseChat.Submit "  Any mouse?  " noon) UseChat.initial.

(** What the completion client throws for an HTTP 401 whose body carries the
    message [invalid api key]. *)
Definition unauthorized : JS.Thrown :=
  OpenAI.notOkError 401 (OpenAI.BodyError "invalid api key").

(** The hook after that question has failed. *)
Definition failedTurn : UseChat.State :=
  UseChat.step catalog (UseChat.Settle (JS.Rejected unauthorized) afterNoon)
    inFlight.

End Scenario.

(** ** config/woocommerce.ts *)

Module WooCommerceConfig.

Record WooCommerceConfig : Type := {
  storeUrl : string;
  consumerKey : string;
  consumerSecret : string
}.

(** [validateWooCommerceConfig]. *)
Definition validateWooCommerceConfig (cfg : WooCommerceConfig) : bool :=
  JS.truthy cfg.(storeUrl) && JS.truthy cfg.(consumerKey)
  && JS.truthy cfg.(consumerSecret).

(** [url.replace(/\/$/, '')]: a slash that ends the string is removed. *)
Fixpoint dropTrailingSlash (url : string) : string :=
  match url with
  | EmptyString => EmptyString
  | String c rest =>
      match rest with
      | EmptyString => if Ascii.eqb c "/" then EmptyString else url
      | String _ _ => String c (dropTrailingSlash rest)
      end
  end.

(** [getWooCommerceApiUrl]. *)
Definition getWooCommerceApiUrl (cfg : WooCommerceConfig) (endpoint : string)
  : string :=
  let baseUrl := dropTrailingSlash cfg.(storeUrl) in
  baseUrl ++ "/wp-json/wc/v3/" ++ endpoint.

(** The last code unit of a string, if it has one. *)
Fixpoint lastChar (s : string) : option ascii :=
  match s with
  | EmptyString => None
  | String c rest =>
      match rest with
      | EmptyString => Some c
      | String _ _ => lastChar rest
      end
  end.

End WooCommerceConfig.

(** ** hooks/useProducts.ts *)

Module UseProducts.
Import WooCommerce.

Record UseProductsOptions : Type := {
  autoFetch : bool;
  perPage : Z;
  category : option Z
}.

(** The [params] object handed to [wooCommerceService.getProducts]. *)
Record Params : Type := {
  per_page : Z;
  status : string;
  param_category : option Z
}.

Record State : Type := {
  products : list WooCommerceProduct;
  isLoading : bool;
  error : option string
}.

Definition initial : State :=
  {| products := []; isLoading := false; error := None |}.

(** [if (category) params.category = category]: zero counts as absent. *)
Definition paramsOf (options : UseProductsOptions) : Params :=
  {| per_page := options.(perPage);
     status := "publish";
     param_category :=
       match options.(category) with
       | Some c => if (c =? 0)%Z then None else Some c
       | None => None
       end |}.

(** [fetchProducts] up to its [await]. *)
Definition fetchProducts_begin (options : UseProductsOptions) (st : State)
  : State * Params :=
  ({| products := st.(products); isLoading := true; error := None |},
   paramsOf options).

(** [fetchProducts] from its [await] on: [outcome] is what
    [wooCommerceService.getProducts] settles to. *)
Definition fetchProducts_settle (outcome : JS.Settled (list WooCommerceProduct))
  (st : State) : State :=
  match outcome with
  | JS.Fulfilled fetchedProducts =>
      {| products := fetchedProducts; isLoading := false; error := None |}
  | JS.Rejected err =>
      let errorMessage :=
        match err with
        | JS.ErrorObject _ message => message
        | JS.OtherValue => "Failed to fetch products"
        end in
      {| products := []; isLoading := false; error := Some errorMessage |}
  end.

(** [hasProducts]. *)
Definition hasProducts (st : State) : bool :=
  (0 <? List.length st.(products))%nat.

(** A fetch starts or a fetch settles; nothing keeps two fetches apart. *)
Inductive Action : Type :=
| Begin
| Settle (outcome : JS.Settled (list WooCommerceProduct)).

Definition step (options : UseProductsOptions) (a : Action) (st : State)
  : State :=
  match a with
  | Begin => fst (fetchProducts_begin options st)
  | Settle outcome => fetchProducts_settle outcome st
  end.

Inductive reachable (options : UseProductsOptions) : State -> Prop :=
| reachable_initial : reachable options initial
| reachable_step : forall st a,
    reachable options st -> reachable options (step options a st).

End UseProducts.

(** ** The App component: messages and [handleSendMessage] *)

Module AppChat.
Import WooCommerce.

Record Settings : Type := {
  openaiApiKey : string;
  woocommerceUrl : string;
  woocommerceConsumerKey : string;
  woocommerceConsumerSecret : string
}.

Inductive Role : Type := user | assistant.

Record Message : Type := {
  id : string;
  role : Role;
  content : string;
  timestamp : Z;
  products : option (list WooCommerceProduct)
}.

(** The state of the component that [handleSendMessage] and the functions it
    calls read and write. *)
Record State : Type := {
  messages : list Message;
  isLoading : bool;
  settings : Settings;
  isSettingsOpen : bool;
  catalog : list WooCommerceProduct;     (* the [products] state *)
  isLoadingProducts : bool
}.

(** What the component sends out: the catalog request of [loadProducts],
    and what the completion service sends for it. *)
Inductive Event : Type :=
| GetProducts (limit : Z)
| Service (e : OpenAI.Event).

Definition setMessages (f : list Message -> list Message) (st : State) : State :=
  {| messages := f st.(messages);
     isLoading := st.(isLoading);
     settings := st.(settings);
     isSettingsOpen := st.(isSettingsOpen);
     catalog := st.(catalog);
     isLoadingProducts := st.(isLoadingProducts) |}.

Definition setIsLoading (b : bool) (st : State) : State :=
  {| messages := st.(messages);
     isLoading := b;
     settings := st.(settings);
     isSettingsOpen := st.(isSettingsOpen);
     catalog := st.(catalog);
     isLoadingProducts := st.(isLoadingProducts) |}.

Definition setIsSettingsOpen (b : bool) (st : State) : State :=
  {| messages := st.(messages);
     isLoading := st.(isLoading);
     settings := st.(settings);
     isSettingsOpen := b;
     catalog := st.(catalog);
     isLoadingProducts := st.(isLoadingProducts) |}.

Definition setProducts (fetched : list WooCommerceProduct) (st : State) : State :=
  {| messages := st.(messages);
     isLoading := st.(isLoading);
     settings := st.(settings);
     isSettingsOpen := st.(isSettingsOpen);
     catalog := fetched;
     isLoadingProducts := st.(isLoadingProducts) |}.

Definition setIsLoadingProducts (b : bool) (st : State) : State :=
  {| messages := st.(messages);
     isLoading := st.(isLoading);
     settings := st.(settings);
     isSettingsOpen := st.(isSettingsOpen);
     catalog := st.(catalog);
     isLoadingProducts := b |}.

(** [addMessage]: the id is [Date.now().toString()]. *)
Definition addMessage (role : Role) (content : string)
  (relatedProducts : option (list WooCommerceProduct)) (clock : UseChat.Clock)
  (st : State) : State :=
  let newMessage :=
    {| id := JS.numToString clock.(UseChat.dateNow);
       role := role;
       content := content;
       timestamp := clock.(UseChat.newDate);
       products := relatedProducts |} in
  setMessages (fun prev => prev ++ [newMessage])%list st.

Definition failedToLoad : string :=
  "Failed to load products. Please check your WooCommerce connection settings.".

(** [loadProducts]: [loaded] is what [wooCommerceService.getProducts(20)]
    settles to. *)
Definition loadProducts (loaded : JS.Settled (list WooCommerceProduct))
  (clock : UseChat.Clock) (st : State) : State * list Event :=
  let st1 := setIsLoadingProducts true st in
  let st2 :=
    match loaded with
    | JS.Fulfilled fetchedProducts => setProducts fetchedProducts st1
    | JS.Rejected _ => addMessage assistant failedToLoad None clock st1
    end in
  (setIsLoadingProducts false st2, [GetProducts 20]).

Definition configureOpenAI : string :=
  "Please configure your OpenAI API key in settings to use the chatbot.".

Definition configureWooCommerce : string :=
  "Please configure your WooCommerce connection in settings to access product information.".

(** The three clock readings of one [handleSendMessage]: for the user
    message, for the message of a failed catalog load, for the reply. *)
Record Clocks : Type := {
  atUser : UseChat.Clock;
  atLoad : UseChat.Clock;
  atReply : UseChat.Clock
}.

(** What the completion service meets while it serves one [sendMessage]. *)
Record World : Type := {
  now : Z;
  fetched : JS.Settled (list WooCommerceProduct);
  reply : OpenAI.CompletionResponse
}.

(** [error instanceof Error ? error.message : '...']. *)
Definition errorMessageOf (err : JS.Thrown) : string :=
  match err with
  | JS.ErrorObject _ message => message
  | JS.OtherValue => "An error occurred while processing your message."
  end.

(** [handleSendMessage], nothing else interleaving. [st] is the state of the
    render the handler belongs to: its [settings] and [products] are the ones
    the handler and [findRelevantProducts] have closed over, so a catalog
    that [loadProducts] fetches on the way is stored for the next render and
    not seen by this call. The second argument of
    [openAIService.sendMessage] is the assembled prompt, which that method
    takes as its [includeProductContext] flag. *)
Definition handleSendMessage (cfg : OpenAI.OpenAIConfig) (userMessage : string)
  (clocks : Clocks) (loaded : JS.Settled (list WooCommerceProduct))
  (world : World) (st : State) (service : OpenAI.OpenAIService)
  : State * OpenAI.OpenAIService * list Event :=
  if negb (JS.truthy st.(settings).(openaiApiKey)) then
    (setIsSettingsOpen true
       (addMessage assistant configureOpenAI None clocks.(atUser) st),
     service, [])
  else if negb (JS.truthy st.(settings).(woocommerceUrl))
          || negb (JS.truthy st.(settings).(woocommerceConsumerKey)) then
    (setIsSettingsOpen true
       (addMessage assistant configureWooCommerce None clocks.(atUser) st),
     service, [])
  else
    let st1 := setIsLoading true (addMessage user userMessage None clocks.(atUser) st) in
    let '(st2, events1) :=
      if (List.length st.(catalog) =? 0)%nat
      then loadProducts loaded clocks.(atLoad) st1
      else (st1, []) in
    let relevantProducts := App.findRelevantProducts st.(catalog) userMessage in
    let systemPrompt :=
      App.systemPromptPreamble ++ App.productContext relevantProducts in
    let '(result, service', events2) :=
      OpenAI.sendMessage cfg userMessage (JS.truthy systemPrompt)
        world.(now) world.(fetched) world.(reply) service in
    let st3 :=
      match result with
      | JS.Fulfilled response =>
          addMessage assistant response
            (if (0 <? List.length relevantProducts)%nat
             then Some relevantProducts else None)
            clocks.(atReply) st2
      | JS.Rejected error =>
          addMessage assistant
            ("Sorry, I encountered an error: " ++ errorMessageOf error
               ++ ". Please check your API key and try again.")
            None clocks.(atReply) st2
      end in
    (setIsLoading false st3, service', (events1 ++ map Service events2)%list).

(** [isConfigured] of the component. *)
Definition isConfigured (st : State) : bool :=
  JS.truthy st.(settings).(openaiApiKey)
  && JS.truthy st.(settings).(woocommerceUrl)
  && JS.truthy st.(settings).(woocommerceConsumerKey).

End AppChat.

(** ** Text without markup *)

Module Markup.

(** No [<] of the text is followed, anywhere later, by a [>]: the text holds
    nothing that the pattern [<[^>]*>] matches. *)
Definition tagFree (s : string) : Prop :=
  forall a b : string, s = a ++ String "<" b -> JS.hasGt b = false.

(** The same, computed. *)
Fixpoint hasTag (s : string) : bool :=
  match s with
  | EmptyString => false
  | String c rest => (Ascii.eqb c "<" && JS.hasGt rest) || hasTag rest
  end.

End Markup.

(** ** Reading a transcript *)

Module Transcript.

Definition isUser (m : UseChat.Message) : bool :=
  match m.(UseChat.role) with
  | UseChat.user => true
  | UseChat.assistant => false
  end.

(** The texts of the user turns, oldest first. *)
Definition userTexts (messages : list UseChat.Message) : list string :=
  map UseChat.content (filter isUser messages).


End Transcript.

(** ** More sample data *)

Module Samples.
Import WooCommerce.

Definition storeSettings : AppChat.Settings :=
  {| AppChat.openaiApiKey := "sk-test";
     AppChat.woocommerceUrl := "https://shop.example";
     AppChat.woocommerceConsumerKey := "ck_1";
     AppChat.woocommerceConsumerSecret := "cs_1" |}.

Definition noSettings : AppChat.Settings :=
  {| AppChat.openaiApiKey := EmptyString;
     AppChat.woocommerceUrl := EmptyString;
     AppChat.woocommerceConsumerKey := EmptyString;
     AppChat.woocommerceConsumerSecret := EmptyString |}.

(** The component at its first render, with the given settings and catalog. *)
Definition app (settings : AppChat.Settings)
  (catalog : list WooCommerceProduct) : AppChat.State :=
  {| AppChat.messages := [];
     AppChat.isLoading := false;
     AppChat.settings := settings;
     AppChat.isSettingsOpen := false;
     AppChat.catalog := catalog;
     AppChat.isLoadingProducts := false |}.

Definition clocks : AppChat.Clocks :=
  {| AppChat.atUser := Scenario.noon;
     AppChat.atLoad := Scenario.noon;
     AppChat.atReply := Scenario.afterNoon |}.

Definition world : AppChat.World :=
  {| AppChat.now := 1765133457900;
     AppChat.fetched := JS.Fulfilled [Scenario.wirelessMouse];
     AppChat.reply := Scenario.sampleReply |}.

Definition firstRequest : UseChat.Request :=
  {| UseChat.req_content := "Any mouse?";
     UseChat.req_products := Scenario.catalog;
     UseChat.req_signal := 0 |}.

Definition secondRequest : UseChat.Request :=
  {| UseChat.req_content := "And a cable?";
     UseChat.req_products := Scenario.catalog;
     UseChat.req_signal := 1 |}.

Definition abortError : JS.Thrown :=
  JS.ErrorObject "AbortError" "The user aborted a request.".

(** Two sends through the callbacks of the first render: the second is made
    while the first is under way. *)
Definition twoSends : UseChat.State :=
  UseChat.step Scenario.catalog
    (UseChat.StaleSubmit "And a cable?" Scenario.afterNoon) Scenario.inFlight.

(** The first of the two has settled, by the abort the second sent it. *)
Definition firstAborted : UseChat.State :=
  UseChat.step Scenario.catalog
    (UseChat.Settle (JS.Rejected abortError) Scenario.afterNoon) twoSends.

Definition shop : WooCommerceConfig.WooCommerceConfig :=
  {| WooCommerceConfig.storeUrl := "https://shop.example";
     WooCommerceConfig.consumerKey := "ck_1";
     WooCommerceConfig.consumerSecret := "cs_1" |}.

Definition productOptions : UseProducts.UseProductsOptions :=
  {| UseProducts.autoFetch := true;
     UseProducts.perPage := 100;
     UseProducts.category := None |}.

End Samples.

(* ================================================================== *)
(** * Part II: properties *)
(* ================================================================== *)

(** ** Facts about the built-ins *)

Module JSFacts.

Lemma toLowerCase_app (a b : string) :
  JS.toLowerCase (a ++ b) = JS.toLowerCase a ++ JS.toLowerCase b.
Proof.
  induction a as [|c a IH]; simpl; [reflexivity | now rewrite IH].
Qed.

Lemma prefix_app (k a b : string) :
  String.prefix k a = true -> String.prefix k (a ++ b) = true.
Proof.
  revert a; induction k as [|c k IH]; intros a H.
  - now destruct (a ++ b).
  - destruct a as [|d a]; simpl in *; [discriminate|].
    destruct (ascii_dec c d); [now apply IH | discriminate].
Qed.

(** A substring of the front part is a substring of the whole. *)
Lemma includes_app_l (a b k : string) :
  JS.includes a k = true -> JS.includes (a ++ b) k = true.
Proof.
  induction a as [|d a IH]; intros H.
  - simpl in H. rewrite orb_false_r in H.
    destruct k; [|discriminate].
    destruct (EmptyString ++ b); reflexivity.
  - cbn [JS.includes] in H. apply orb_prop in H.
    change (String d a ++ b) with (String d (a ++ b)).
    cbn [JS.includes]. apply orb_true_iff. destruct H as [H|H].
    + left. now apply (prefix_app k (String d a) b).
    + right. now apply IH.
Qed.

(** *** [trim] *)

Lemma trimStart_clean (s : string) : JS.startsClean (JS.trimStart s).
Proof.
  induction s as [|c s IH]; simpl; [exact I|].
  destruct (JS.isWhiteSpace c) eqn:E; [exact IH | exact E].
Qed.

Lemma trimStart_of_clean (s : string) : JS.startsClean s -> JS.trimStart s = s.
Proof.
  destruct s as [|c s]; simpl; [reflexivity|]. now intros ->.
Qed.

Lemma trimEnd_clean (s : string) : JS.startsClean s -> JS.startsClean (JS.trimEnd s).
Proof.
  destruct s as [|c s]; simpl; [trivial|]. intros H.
  destruct (JS.trimEnd s); [rewrite H|]; exact H.
Qed.

Lemma trimEnd_idem (s : string) : JS.trimEnd (JS.trimEnd s) = JS.trimEnd s.
Proof.
  induction s as [|c s IH]; simpl; [reflexivity|].
  destruct (JS.trimEnd s) as [|d r] eqn:E.
  - destruct (JS.isWhiteSpace c) eqn:W; simpl; [reflexivity | now rewrite W].
  - cbn [JS.trimEnd]. cbn [JS.trimEnd] in IH. now rewrite IH.
Qed.

Lemma trim_idem (s : string) : JS.trim (JS.trim s) = JS.trim s.
Proof.
  unfold JS.trim.
  rewrite (trimStart_of_clean (JS.trimEnd (JS.trimStart s))).
  - apply trimEnd_idem.
  - apply trimEnd_clean, trimStart_clean.
Qed.

(** *** [sort] with a comparator [(a, b) => key b - key a] *)

Section SortByKey.
Context {A : Type} (key : A -> Z).

Local Abbreviation descending := (JS.descending key).

Lemma insertBy_perm (x : A) (l : list A) :
  Permutation (JS.insertBy descending x l) (x :: l).
Proof.
  induction l as [|y l IH]; simpl; [reflexivity|].
  destruct (descending x y <=? 0)%Z; [reflexivity|].
  rewrite IH. apply perm_swap.
Qed.

Lemma sort_perm (l : list A) : Permutation (JS.sort descending l) l.
Proof.
  induction l as [|x l IH]; simpl; [constructor|].
  rewrite insertBy_perm. now constructor.
Qed.

Lemma insertBy_sorted (x : A) (l : list A) :
  StronglySorted (fun a b => (key b <= key a)%Z) l ->
  StronglySorted (fun a b => (key b <= key a)%Z) (JS.insertBy descending x l).
Proof.
  induction 1 as [|y l Hs IH Hy]; simpl.
  - repeat constructor.
  - unfold JS.descending at 1.
    destruct (key y - key x <=? 0)%Z eqn:E.
    + apply Z.leb_le in E. constructor; [now constructor|].
      constructor; [lia|].
      eapply Forall_impl; [|exact Hy]. simpl; intros; lia.
    + apply Z.leb_gt in E. constructor; [exact IH|].
      eapply Permutation_Forall; [symmetry; apply insertBy_perm|].
      constructor; [lia | exact Hy].
Qed.

Lemma sort_sorted (l : list A) :
  StronglySorted (fun a b => (key b <= key a)%Z) (JS.sort descending l).
Proof.
  induction l as [|x l IH]; simpl; [constructor | now apply insertBy_sorted].
Qed.

(** Stability: the elements of one key keep their order. *)
Lemma insertBy_stable (s : Z) (x : A) (l : list A) :
  filter (fun a => (key a =? s)%Z) (JS.insertBy descending x l)
  = filter (fun a => (key a =? s)%Z) (x :: l).
Proof.
  induction l as [|y l IH]; [reflexivity|].
  cbn [JS.insertBy]. unfold JS.descending at 1.
  destruct (key y - key x <=? 0)%Z eqn:E; [reflexivity|].
  apply Z.leb_gt in E.
  cbn [filter] in *. rewrite IH.
  destruct (key x =? s)%Z eqn:Ex, (key y =? s)%Z eqn:Ey; try reflexivity.
  apply Z.eqb_eq in Ex, Ey. lia.
Qed.

Lemma sort_stable (s : Z) (l : list A) :
  filter (fun a => (key a =? s)%Z) (JS.sort descending l)
  = filter (fun a => (key a =? s)%Z) l.
Proof.
  induction l as [|x l IH]; [reflexivity|].
  cbn [JS.sort fold_right]. fold (JS.sort descending l).
  rewrite insertBy_stable. cbn [filter]. now rewrite IH.
Qed.

(** The first of the elements with the greatest key ends up in front. *)
Lemma sort_first_greatest (before : list A) (x : A) (after : list A) :
  (forall a, In a before -> (key a < key x)%Z) ->
  (forall a, In a after -> (key a <= key x)%Z) ->
  exists rest, JS.sort descending (before ++ x :: after) = x :: rest.
Proof.
  intros Hb Ha. induction before as [|b before IH].
  - cbn [app JS.sort fold_right]. fold (JS.sort descending after).
    destruct (JS.sort descending after) as [|y r] eqn:E.
    + now exists [].
    + cbn [JS.insertBy]. unfold JS.descending at 1.
      assert (Hy : (key y <= key x)%Z).
      { apply Ha. apply (Permutation_in y (sort_perm after)).
        rewrite E. now left. }
      destruct (key y - key x <=? 0)%Z eqn:L; [now eexists|].
      apply Z.leb_gt in L. lia.
  - destruct IH as [rest IH]; [intros a Ia; apply Hb; now right|].
    change ((b :: before) ++ x :: after)%list
      with (b :: (before ++ x :: after))%list.
    cbn [JS.sort fold_right]. fold (JS.sort descending (before ++ x :: after)).
    rewrite IH. cbn [JS.insertBy]. unfold JS.descending at 1.
    assert (Hlt : (key b < key x)%Z) by (apply Hb; now left).
    destruct (key x - key b <=? 0)%Z eqn:L; [|now eexists].
    apply Z.leb_le in L. lia.
Qed.

End SortByKey.

(** Sorting the images is the image of sorting. *)
Lemma sort_map {A B : Type} (g : B -> A) (compareFn : A -> A -> Z) (l : list B) :
  JS.sort compareFn (map g l)
  = map g (JS.sort (fun a b => compareFn (g a) (g b)) l).
Proof.
  assert (Hins : forall x l',
    JS.insertBy compareFn (g x) (map g l')
    = map g (JS.insertBy (fun a b => compareFn (g a) (g b)) x l')).
  { intros x l'. induction l' as [|y l' IH]; [reflexivity|].
    simpl. destruct (compareFn (g x) (g y) <=? 0)%Z; [reflexivity|].
    simpl. now rewrite IH. }
  induction l as [|x l IH]; [reflexivity|].
  change (JS.sort compareFn (map g (x :: l)))
    with (JS.insertBy compareFn (g x) (JS.sort compareFn (map g l))).
  rewrite IH. apply Hins.
Qed.

Lemma filter_map_comm {A B : Type} (g : B -> A) (f : A -> bool) (l : list B) :
  filter f (map g l) = map g (filter (fun b => f (g b)) l).
Proof.
  induction l as [|x l IH]; [reflexivity|].
  simpl. destruct (f (g x)); simpl; now rewrite IH.
Qed.

(** *** [join] *)

Lemma append_nil_r (s : string) : s ++ EmptyString = s.
Proof.
  induction s as [|c s IH]; simpl; [reflexivity | now rewrite IH].
Qed.

(** The first part comes first, alone or followed by the separator. *)
Lemma join_cons (sep x : string) (l : list string) :
  exists rest,
    JS.join sep (x :: l) = x ++ rest
    /\ (rest = EmptyString \/ exists more, rest = sep ++ more).
Proof.
  destruct l as [|y l].
  - exists EmptyString. split; [|now left].
    symmetry. apply append_nil_r.
  - exists (sep ++ JS.join sep (y :: l)). split; [reflexivity|].
    right. now eexists.
Qed.

(** *** [trim] and white space *)

Lemma trimStart_empty_iff (s : string) :
  JS.trimStart s = EmptyString <-> JS.whitespaceOnly s = true.
Proof.
  induction s as [|c s IH]; simpl; [tauto|].
  destruct (JS.isWhiteSpace c); simpl; [exact IH|].
  split; discriminate.
Qed.

Lemma trimEnd_empty_clean (s : string) :
  JS.startsClean s -> JS.trimEnd s = EmptyString -> s = EmptyString.
Proof.
  destruct s as [|c s]; simpl; [trivial|]. intros ->.
  destruct (JS.trimEnd s); discriminate.
Qed.

(** [trim] leaves nothing exactly of the strings that are white space. *)
Lemma trim_empty_iff (s : string) :
  JS.trim s = EmptyString <-> JS.whitespaceOnly s = true.
Proof.
  unfold JS.trim. rewrite <- trimStart_empty_iff. split.
  - apply trimEnd_empty_clean, trimStart_clean.
  - now intros ->.
Qed.

Lemma truthy_trim (s : string) :
  JS.truthy (JS.trim s) = negb (JS.whitespaceOnly s).
Proof.
  destruct (JS.whitespaceOnly s) eqn:W.
  - apply trim_empty_iff in W. now rewrite W.
  - destruct (JS.trim s) eqn:T; [|reflexivity].
    apply trim_empty_iff in T. congruence.
Qed.

Lemma truthy_iff (s : string) : JS.truthy s = true <-> s <> EmptyString.
Proof. destruct s; simpl; split; congruence. Qed.

End JSFacts.

(** ** The relevance scorer and the context assembler *)

Module AppFacts.
Import WooCommerce.

(** The scorer is: keep the positive scores, sort, take five. *)
Lemma findRelevantProducts_eq (products : list WooCommerceProduct)
  (query : string) :
  App.findRelevantProducts products query
  = firstn 5
      (JS.sort (JS.descending (App.scoreOf (App.keywordsOf query)))
         (filter (fun p => (0 <? App.scoreOf (App.keywordsOf query) p)%Z)
            products)).
Proof.
  unfold App.findRelevantProducts.
  destruct products as [|p0 products]; [reflexivity|].
  cbn [List.length Nat.eqb]. cbv zeta. unfold JS.slice0.
  set (score := App.scoreOf (App.keywordsOf query)).
  set (g := fun product => {| App.product := product; App.score := score product |}).
  rewrite (JSFacts.filter_map_comm g), JSFacts.sort_map.
  rewrite firstn_map, map_map. cbn [g App.product App.score].
  rewrite map_id. reflexivity.
Qed.

(** C1. For every query and every product list, [findRelevantProducts]
    returns the first five entries of a ranking that holds exactly the
    products of positive score, is ordered by non-increasing score and keeps
    products of equal score in catalog order; so it returns at most five
    products. The score is computed from the words of the lowercased query
    that are longer than two characters. *)
Theorem findRelevantProducts_ranked :
  forall (products : list WooCommerceProduct) (query : string),
    let keywords :=
      filter (fun word => (2 <? String.length word)%nat)
        (JS.split " " (JS.toLowerCase query)) in
    let score := App.scoreOf keywords in
    let positive := filter (fun p => (0 <? score p)%Z) products in
    exists ranked : list WooCommerceProduct,
      Permutation ranked positive
      /\ StronglySorted (fun a b => (score b <= score a)%Z) ranked
      /\ (forall s : Z,
            filter (fun p => (score p =? s)%Z) ranked
            = filter (fun p => (score p =? s)%Z) positive)
      /\ App.findRelevantProducts products query = firstn 5 ranked
      /\ (List.length (App.findRelevantProducts products query) <= 5)%nat.
Proof.
  intros products query keywords score positive.
  exists (JS.sort (JS.descending score) positive).
  split; [apply JSFacts.sort_perm|].
  split; [apply JSFacts.sort_sorted|].
  split; [intros s; apply JSFacts.sort_stable|].
  assert (E : App.findRelevantProducts products query
              = firstn 5 (JS.sort (JS.descending score) positive))
    by apply findRelevantProducts_eq.
  split; [exact E|].
  rewrite E. apply firstn_le_length.
Qed.

(** *** The weight of one keyword *)

Lemma scoreKeyword_shift (p : WooCommerceProduct) (s : Z) (keyword : string) :
  App.scoreKeyword p s keyword = (s + App.scoreKeyword p 0 keyword)%Z.
Proof.
  unfold App.scoreKeyword.
  destruct (JS.includes (App.productText p) keyword),
    (JS.includes (JS.toLowerCase (name p)) keyword); lia.
Qed.

Lemma fold_scoreKeyword_shift (p : WooCommerceProduct) (keywords : list string)
  (s : Z) :
  fold_left (App.scoreKeyword p) keywords s = (s + App.scoreOf keywords p)%Z.
Proof.
  unfold App.scoreOf. revert s.
  induction keywords as [|k keywords IH]; intros s; simpl; [lia|].
  rewrite IH, (IH (App.scoreKeyword p 0 k)), (scoreKeyword_shift p s k). lia.
Qed.

(** A keyword adds its own weight, wherever it stands among the others. *)
Lemma scoreOf_insert (p : WooCommerceProduct) (before after : list string)
  (keyword : string) :
  App.scoreOf (before ++ keyword :: after) p
  = (App.scoreOf (before ++ after) p + App.scoreKeyword p 0 keyword)%Z.
Proof.
  unfold App.scoreOf at 1 2. rewrite !fold_left_app. cbn [fold_left].
  rewrite (fold_scoreKeyword_shift p after
             (App.scoreKeyword p (fold_left (App.scoreKeyword p) before 0%Z) keyword)).
  rewrite (fold_scoreKeyword_shift p after (fold_left (App.scoreKeyword p) before 0%Z)).
  rewrite (scoreKeyword_shift p (fold_left (App.scoreKeyword p) before 0%Z)). lia.
Qed.

(** The text searched starts with the lowercased name. *)
Lemma name_in_productText (p : WooCommerceProduct) (keyword : string) :
  JS.includes (JS.toLowerCase (name p)) keyword = true ->
  JS.includes (App.productText p) keyword = true.
Proof.
  intros H. unfold App.productText.
  rewrite JSFacts.toLowerCase_app. now apply JSFacts.includes_app_l.
Qed.

Lemma weight_in_name (p : WooCommerceProduct) (keyword : string) :
  JS.includes (JS.toLowerCase (name p)) keyword = true ->
  App.scoreKeyword p 0 keyword = 4%Z.
Proof.
  intros H. unfold App.scoreKeyword.
  now rewrite (name_in_productText p keyword H), H.
Qed.

Lemma weight_not_in_name (p : WooCommerceProduct) (keyword : string) :
  JS.includes (JS.toLowerCase (name p)) keyword = false ->
  (0 <= App.scoreKeyword p 0 keyword <= 1)%Z.
Proof.
  intros H. unfold App.scoreKeyword. rewrite H.
  destruct (JS.includes (App.productText p) keyword); lia.
Qed.

Lemma weight_bounds (p : WooCommerceProduct) (keyword : string) :
  (0 <= App.scoreKeyword p 0 keyword <= 4)%Z.
Proof.
  destruct (JS.includes (JS.toLowerCase (name p)) keyword) eqn:E.
  - rewrite (weight_in_name p keyword E). lia.
  - pose proof (weight_not_in_name p keyword E). lia.
Qed.

(** C2, as the code has it. A keyword found in the searchable text but not
    in the name adds exactly 1 to the product's score; a keyword found in the
    name adds exactly 4: 3 for the name, and 1 more because the searchable
    text starts with the name; a keyword found in neither adds nothing. So a
    keyword in the name of one product weighs at least 3 times (in fact 4
    times) what the same keyword weighs for a product that has it outside its
    name only. *)
Theorem keyword_weight :
  forall (before after : list string) (keyword : string)
         (p : WooCommerceProduct),
    let gain q :=
      (App.scoreOf (before ++ keyword :: after) q
       - App.scoreOf (before ++ after) q)%Z in
    (JS.includes (App.productText p) keyword = true ->
     JS.includes (JS.toLowerCase (name p)) keyword = false ->
     gain p = 1%Z)
    /\ (JS.includes (JS.toLowerCase (name p)) keyword = true ->
        gain p = 4%Z)
    /\ (JS.includes (App.productText p) keyword = false ->
        gain p = 0%Z)
    /\ (forall q : WooCommerceProduct,
          JS.includes (JS.toLowerCase (name p)) keyword = true ->
          JS.includes (JS.toLowerCase (name q)) keyword = false ->
          (3 * gain q <= gain p)%Z).
Proof.
  intros before after keyword p gain.
  assert (G : forall q, gain q = App.scoreKeyword q 0 keyword).
  { intros q. unfold gain. rewrite scoreOf_insert. lia. }
  repeat split.
  - intros Ht Hn. rewrite G. unfold App.scoreKeyword. now rewrite Ht, Hn.
  - intros Hn. rewrite G. now apply weight_in_name.
  - intros Ht. rewrite G. unfold App.scoreKeyword. rewrite Ht.
    destruct (JS.includes (JS.toLowerCase (name p)) keyword) eqn:Hn; [|reflexivity].
    rewrite (name_in_productText p keyword Hn) in Ht. discriminate.
  - intros q Hp Hq. rewrite !G, (weight_in_name p keyword Hp).
    pose proof (weight_not_in_name q keyword Hq). lia.
Qed.

(** The weights at work on the sample catalog: [mouse] is in the name of
    the wireless mouse and only in the description of the cable. *)
Lemma keyword_weight_witness :
  (App.scoreOf ["wireless"; "mouse"] Scenario.usbCable
   - App.scoreOf ["wireless"] Scenario.usbCable = 1)%Z
  /\ (App.scoreOf ["wireless"; "mouse"] Scenario.wirelessMouse
      - App.scoreOf ["wireless"] Scenario.wirelessMouse = 4)%Z
  /\ (App.scoreOf ["wireless"; "mouse"] Scenario.deskLamp
      - App.scoreOf ["wireless"] Scenario.deskLamp = 0)%Z
  /\ (3 * (App.scoreOf ["wireless"; "mouse"] Scenario.usbCable
           - App.scoreOf ["wireless"] Scenario.usbCable)
      <= App.scoreOf ["wireless"; "mouse"] Scenario.wirelessMouse
         - App.scoreOf ["wireless"] Scenario.wirelessMouse)%Z.
Proof.
  split; [|split; [|split]].
  - apply (keyword_weight ["wireless"] [] "mouse" Scenario.usbCable);
      reflexivity.
  - apply (keyword_weight ["wireless"] [] "mouse" Scenario.wirelessMouse);
      reflexivity.
  - apply (keyword_weight ["wireless"] [] "mouse" Scenario.deskLamp);
      reflexivity.
  - apply (keyword_weight ["wireless"] [] "mouse" Scenario.wirelessMouse);
      reflexivity.
Defined.

(** C2, as stated, fails: [mouse] is in the name of the wireless mouse and
    adds 4 to its score, not 3. *)
Lemma keyword_in_name_adds_four_not_three :
  ~ (forall (before after : list string) (keyword : string)
            (p : WooCommerceProduct),
       JS.includes (JS.toLowerCase (name p)) keyword = true ->
       (App.scoreOf (before ++ keyword :: after) p
        - App.scoreOf (before ++ after) p = 3)%Z).
Proof.
  intros H.
  specialize (H [] [] "mouse" Scenario.wirelessMouse eq_refl).
  vm_compute in H. discriminate H.
Qed.

(** *** The context block *)

(** The head of the result has the greatest score of the catalog. *)
Lemma first_is_greatest (products : list WooCommerceProduct) (query : string)
  (first : WooCommerceProduct) (others : list WooCommerceProduct) :
  App.findRelevantProducts products query = first :: others ->
  forall p, In p products ->
    (App.scoreOf (App.keywordsOf query) p
     <= App.scoreOf (App.keywordsOf query) first)%Z.
Proof.
  rewrite findRelevantProducts_eq.
  set (score := App.scoreOf (App.keywordsOf query)).
  set (positive := filter (fun p => (0 <? score p)%Z) products).
  intros E p Hp.
  pose proof (JSFacts.sort_sorted score positive) as Hs.
  pose proof (JSFacts.sort_perm score positive) as Hperm.
  destruct (JS.sort (JS.descending score) positive) as [|x sorted] eqn:Es;
    [discriminate|].
  cbn [firstn] in E. injection E as -> _.
  assert (Hfirst : (0 < score first)%Z).
  { assert (I : In first positive)
      by (apply (Permutation_in first Hperm); now left).
    apply filter_In in I. destruct I as [_ I]. now apply Z.ltb_lt in I. }
  destruct (0 <? score p)%Z eqn:Pos.
  - assert (I : In p (first :: sorted)).
    { apply (Permutation_in p (Permutation_sym Hperm)).
      apply filter_In. now split. }
    destruct I as [<-|I]; [lia|].
    apply StronglySorted_inv in Hs. destruct Hs as [_ Hall].
    rewrite Forall_forall in Hall. now apply Hall.
  - apply Z.ltb_ge in Pos. lia.
Qed.

Lemma scoreOf_two (p : WooCommerceProduct) (k1 k2 : string) :
  App.scoreOf [k1; k2] p
  = (App.scoreKeyword p 0 k1 + App.scoreKeyword p 0 k2)%Z.
Proof.
  unfold App.scoreOf. cbn [fold_left].
  now rewrite (scoreKeyword_shift p (App.scoreKeyword p 0 k1) k2).
Qed.

(** A product in front of the others: where the scorer puts it. *)
Lemma first_of_the_best (before after : list WooCommerceProduct)
  (best : WooCommerceProduct) (query : string) :
  let score := App.scoreOf (App.keywordsOf query) in
  (0 < score best)%Z ->
  (forall p, In p before -> (score p < score best)%Z) ->
  (forall p, In p after -> (score p <= score best)%Z) ->
  exists others,
    App.findRelevantProducts (before ++ best :: after) query = best :: others.
Proof.
  intros score Hpos Hb Ha. rewrite findRelevantProducts_eq. fold score.
  rewrite filter_app. cbn [filter].
  apply Z.ltb_lt in Hpos. rewrite Hpos.
  destruct (JSFacts.sort_first_greatest score
              (filter (fun p => (0 <? score p)%Z) before) best
              (filter (fun p => (0 <? score p)%Z) after)) as [rest E].
  - intros a I. apply filter_In in I. now apply Hb.
  - intros a I. apply filter_In in I. now apply Ha.
  - rewrite E. cbn [firstn]. now eexists.
Qed.

(** C9, as the code has it. Without a relevant product the context block is
    the fixed sentence that no specific products were found. Otherwise it is
    a header followed by one entry per relevant product, joined by line
    feeds, each of the form
    [- <name>: <short description, or the first 100 characters of the
    description> (Price: $<price>, Stock: <stock_status>)], and the first
    entry belongs to a product of greatest score. For the query
    [wireless mouse] and a catalog with a product named [Wireless Mouse],
    priced 29.99 and in stock, the first entry renders that product with
    [(Price: $29.99, Stock: instock)] provided no product placed earlier in
    the catalog has both keywords in its name. *)
Theorem context_block :
  (forall (products : list WooCommerceProduct) (query : string),
     let relevant := App.findRelevantProducts products query in
     (relevant = [] -> App.assembleContext products query = App.noProductsFound)
     /\ (relevant <> [] ->
         App.assembleContext products query
         = App.relevantHeader ++ JS.join LF (map App.productLine relevant))
     /\ (forall first others, relevant = first :: others ->
         forall p, In p products ->
           (App.scoreOf (App.keywordsOf query) p
            <= App.scoreOf (App.keywordsOf query) first)%Z))
  /\ (forall p : WooCommerceProduct,
        App.productLine p
        = "- " ++ name p ++ ": "
            ++ match short_description p with
               | EmptyString => String.substring 0 100 (description p)
               | String _ _ => short_description p
               end
            ++ " (Price: $" ++ price p ++ ", Stock: " ++ stock_status p ++ ")")
  /\ (forall (before after : list WooCommerceProduct)
             (mouse : WooCommerceProduct),
        name mouse = "Wireless Mouse" ->
        price mouse = "29.99" ->
        stock_status mouse = "instock" ->
        (forall p, In p before ->
           JS.includes (JS.toLowerCase (name p)) "wireless"
           && JS.includes (JS.toLowerCase (name p)) "mouse" = false) ->
        exists rest,
          App.assembleContext (before ++ mouse :: after) "wireless mouse"
          = App.relevantHeader ++ App.productLine mouse ++ rest
          /\ (rest = EmptyString \/ exists more, rest = LF ++ more)
          /\ App.productLine mouse
             = "- Wireless Mouse: "
                 ++ JS.orElse (short_description mouse)
                      (JS.substring 0 100 (description mouse))
                 ++ " (Price: $29.99, Stock: instock)").
Proof.
  split; [|split].
  - intros products query relevant. unfold App.assembleContext. fold relevant.
    split; [|split].
    + intros ->. reflexivity.
    + intros Hne. unfold App.productContext.
      destruct relevant; [contradiction | reflexivity].
    + intros first others E. now apply (first_is_greatest products query first others).
  - intros p. unfold App.productLine, JS.orElse, JS.truthy.
    destruct (short_description p); reflexivity.
  - intros before after mouse Hname Hprice Hstock Hbefore.
    assert (K : App.keywordsOf "wireless mouse" = ["wireless"; "mouse"])
      by reflexivity.
    assert (Hbound : forall p,
      (App.scoreOf (App.keywordsOf "wireless mouse") p <= 8)%Z).
    { intros p. rewrite K, scoreOf_two.
      pose proof (weight_bounds p "wireless").
      pose proof (weight_bounds p "mouse"). lia. }
    assert (Hmouse : App.scoreOf (App.keywordsOf "wireless mouse") mouse = 8%Z).
    { rewrite K, scoreOf_two.
      rewrite (weight_in_name mouse "wireless"), (weight_in_name mouse "mouse");
        [reflexivity | |]; rewrite Hname; reflexivity. }
    destruct (first_of_the_best before after mouse "wireless mouse")
      as [others E].
    + rewrite Hmouse. lia.
    + intros p I. rewrite Hmouse, K, scoreOf_two.
      specialize (Hbefore p I). apply andb_false_iff in Hbefore.
      pose proof (weight_bounds p "wireless").
      pose proof (weight_bounds p "mouse").
      destruct Hbefore as [Hno|Hno];
        apply weight_not_in_name in Hno; lia.
    + intros p _. rewrite Hmouse. apply Hbound.
    + unfold App.assembleContext. rewrite E.
      unfold App.productContext. cbn [List.length Nat.ltb Nat.leb map].
      destruct (JSFacts.join_cons LF (App.productLine mouse)
                  (map App.productLine others)) as [rest [J Hrest]].
      exists rest. split; [now rewrite J|]. split; [exact Hrest|].
      unfold App.productLine. rewrite Hname, Hprice, Hstock. reflexivity.
Qed.

(** The sample catalog: the cable stands before the wireless mouse and has
    neither keyword in its name, the pad comes after it. *)
Lemma context_block_witness :
  exists rest,
    App.assembleContext
      ([Scenario.usbCable] ++ Scenario.wirelessMouse :: [Scenario.wirelessMousePad])
      "wireless mouse"
    = App.relevantHeader ++ App.productLine Scenario.wirelessMouse ++ rest
    /\ (rest = EmptyString \/ exists more, rest = LF ++ more)
    /\ App.productLine Scenario.wirelessMouse
       = "- Wireless Mouse: "
           ++ JS.orElse (short_description Scenario.wirelessMouse)
                (JS.substring 0 100 (description Scenario.wirelessMouse))
           ++ " (Price: $29.99, Stock: instock)".
Proof.
  apply (proj2 (proj2 context_block)); try reflexivity.
  intros p [<-|[]]. reflexivity.
Defined.

(** C9, as stated, fails: a pad named [Wireless Mouse Pad] that stands
    before the product named [Wireless Mouse] scores as much and keeps its
    place, so the first entry is the pad's. *)
Lemma wireless_mouse_not_always_first :
  ~ (forall (products : list WooCommerceProduct) (mouse : WooCommerceProduct),
       In mouse products ->
       name mouse = "Wireless Mouse" ->
       price mouse = "29.99" ->
       stock_status mouse = "instock" ->
       exists rest,
         App.assembleContext products "wireless mouse"
         = App.relevantHeader ++ App.productLine mouse ++ rest).
Proof.
  intros H.
  destruct (H [Scenario.wirelessMousePad; Scenario.wirelessMouse]
              Scenario.wirelessMouse)
    as [rest E]; try reflexivity.
  - right. now left.
  - vm_compute in E. discriminate E.
Qed.

End AppFacts.

(** ** The completion service *)

Module OpenAIFacts.
Import WooCommerce OpenAI.

Lemma hd_error_snoc {A : Type} (l : list A) (x y : A) :
  hd_error l = Some x -> hd_error (l ++ [y]) = Some x.
Proof. destruct l; [discriminate | trivial]. Qed.

Lemma push_headed (message : ChatMessage) (this : OpenAIService) :
  headed this -> headed (push message this).
Proof. unfold headed, push; simpl. apply hd_error_snoc. Qed.

(** Closes a goal [forall body, ~ In (PostCompletion body) events] for
    events that are all of another kind. *)
Ltac no_post :=
  let I := fresh "I" in
  intros ? I; simpl in I;
  repeat (destruct I as [I|I]; [discriminate I|]);
  contradiction.

Lemma getProductContext_history (now : Z)
  (catalog : JS.Settled (list WooCommerceProduct)) (this : OpenAIService) :
  conversationHistory (snd (fst (getProductContext now catalog this)))
  = conversationHistory this
  /\ forall body,
       ~ In (PostCompletion body) (snd (getProductContext now catalog this)).
Proof.
  unfold getProductContext.
  destruct (_ || _); [destruct catalog|]; simpl; split; trivial; no_post.
Qed.

Lemma sendMessage_headed (cfg : OpenAIConfig) (userMessage : string)
  (includeProductContext : bool) (now : Z)
  (catalog : JS.Settled (list WooCommerceProduct))
  (reply : CompletionResponse) (this : OpenAIService) :
  headed this ->
  headed (snd (fst (sendMessage cfg userMessage includeProductContext now
                      catalog reply this)))
  /\ requestsHeaded (snd (sendMessage cfg userMessage includeProductContext now
                            catalog reply this)).
Proof.
  intros H. unfold sendMessage.
  destruct (negb (validateOpenAIConfig cfg)).
  { split; [exact H | intros body []]. }
  set (start := if includeProductContext
                then enhanceMessageWithContext userMessage now catalog this
                else (userMessage, this, [])).
  assert (S1 : headed (snd (fst start))
               /\ forall body, ~ In (PostCompletion body) (snd start)).
  { unfold start, enhanceMessageWithContext.
    destruct includeProductContext; [|split; [exact H | intros body []]].
    destruct (getProductContext_history now catalog this) as [Eh En].
    destruct (getProductContext now catalog this) as [[text this'] events].
    simpl in *. split; [unfold headed; now rewrite Eh | exact En]. }
  destruct start as [[messageContent this1] events1]. simpl in S1.
  destruct S1 as [H1 N1].
  pose proof (push_headed {| role := user; content := messageContent |} this1 H1)
    as H2.
  assert (R : requestsHeaded
                (events1 ++
                 [PostCompletion
                    {| req_model := model cfg;
                       req_messages :=
                         conversationHistory
                           (push {| role := user; content := messageContent |} this1);
                       req_max_tokens := maxTokens cfg;
                       req_temperature := temperature cfg |}])%list).
  { intros body I. apply in_app_or in I. destruct I as [I|[I|[]]].
    - now apply N1 in I.
    - injection I as <-. exact H2. }
  destruct reply; simpl; (split; [|exact R]); trivial.
  now apply push_headed.
Qed.

Lemma run_headed (cfg : OpenAIConfig) (call : Call) (this : OpenAIService) :
  headed this ->
  headed (fst (run cfg call this)) /\ requestsHeaded (snd (run cfg call this)).
Proof.
  intros H. destruct call as [userMessage include now catalog reply
                             | searchQuery found reply | | catalog now]; simpl.
  - pose proof (sendMessage_headed cfg userMessage include now catalog reply this H)
      as S.
    destruct (sendMessage cfg userMessage include now catalog reply this)
      as [[result this'] events]. exact S.
  - unfold searchProductsAndRespond.
    destruct found as [products|reason]; simpl.
    + match goal with
      | |- context [sendMessage cfg ?m false ?n ?c reply this] =>
          pose proof (sendMessage_headed cfg m false n c reply this H) as S;
          destruct (sendMessage cfg m false n c reply this)
            as [[result this'] events]
      end.
      simpl in *. destruct S as [S1 S2]. split; [exact S1|].
      intros body [I|I]; [discriminate I | now apply S2].
    + split; [exact H | intros body [I|[]]; discriminate I].
  - split; [reflexivity | intros body []].
  - destruct catalog; simpl; (split; [exact H|]);
      intros body [I|[]]; discriminate I.
Qed.

Lemma reachable_headed (cfg : OpenAIConfig) (this : OpenAIService) :
  reachable cfg this -> headed this.
Proof.
  induction 1 as [|this call _ IH]; [reflexivity|].
  now apply run_headed.
Qed.

(** C3. In every reachable state of the service the conversation window
    starts with the fixed system instruction, every completion request that
    the next call sends starts with it, and the visible history holds no
    message of role [system]. *)
Theorem system_instruction_first_and_hidden :
  forall (cfg : OpenAIConfig) (this : OpenAIService),
    reachable cfg this ->
    hd_error this.(conversationHistory)
    = Some {| role := system; content := SYSTEM_PROMPT |}
    /\ (forall (call : Call) (body : ChatCompletionRequest),
          In (PostCompletion body) (snd (run cfg call this)) ->
          hd_error body.(req_messages)
          = Some {| role := system; content := SYSTEM_PROMPT |})
    /\ Forall (fun msg => msg.(role) <> system) (getConversationHistory this).
Proof.
  intros cfg this R. pose proof (reachable_headed cfg this R) as H.
  split; [exact H|]. split.
  - intros call body. now apply (run_headed cfg call this H).
  - apply Forall_forall. intros msg I.
    apply filter_In in I. destruct I as [_ I].
    intros E. rewrite E in I. discriminate I.
Qed.

(** The service after one answered question. *)
Lemma system_instruction_first_and_hidden_witness :
  hd_error Scenario.afterOneTurn.(conversationHistory)
  = Some {| role := system; content := SYSTEM_PROMPT |}
  /\ (forall (call : Call) (body : ChatCompletionRequest),
        In (PostCompletion body) (snd (run Scenario.cfg call Scenario.afterOneTurn)) ->
        hd_error body.(req_messages)
        = Some {| role := system; content := SYSTEM_PROMPT |})
  /\ Forall (fun msg => msg.(role) <> system)
       (getConversationHistory Scenario.afterOneTurn).
Proof.
  apply (system_instruction_first_and_hidden Scenario.cfg Scenario.afterOneTurn).
  unfold Scenario.afterOneTurn. apply reachable_run, reachable_new.
Defined.

(** C10. [getProductContext] fetches the catalog exactly when the cache is
    empty or more than five minutes (300000 ms) lie between the clock and
    the time of the cache; otherwise it formats the cache and leaves the
    object as it is. A fetch that succeeds replaces the cache and its time;
    a fetch that fails makes it return the fixed text that product
    information is unavailable, and the turn goes on: the request is sent with
    that text and the reply is returned. *)
Theorem getProductContext_cache :
  forall (now : Z) (this : OpenAIService),
    let stale :=
      this.(productCache) = []
      \/ (now - this.(productCacheTime) > 300000)%Z in
    (~ stale ->
     forall catalog,
       getProductContext now catalog this
       = (formatProductsForAI this.(productCache), this, []))
    /\ (stale ->
        forall fetched,
          getProductContext now (JS.Fulfilled fetched) this
          = (formatProductsForAI fetched,
             {| conversationHistory := this.(conversationHistory);
                productCache := fetched;
                productCacheTime := now |},
             [GetProducts 50 None]))
    /\ (stale ->
        forall reason,
          getProductContext now (JS.Rejected reason) this
          = ("Product information is currently unavailable.", this,
             [GetProducts 50 None]))
    /\ (stale ->
        forall cfg userMessage reason answer,
          validateOpenAIConfig cfg = true ->
          let question :=
            {| role := user;
               content :=
                 "Available Products:" ++ LF
                   ++ "Product information is currently unavailable."
                   ++ LF ++ LF ++ "Customer Question: " ++ userMessage |} in
          sendMessage cfg userMessage true now (JS.Rejected reason)
            (OkChoice answer) this
          = (JS.Fulfilled answer.(content),
             push answer (push question this),
             [GetProducts 50 None;
              PostCompletion
                {| req_model := cfg.(model);
                   req_messages := (this.(conversationHistory) ++ [question])%list;
                   req_max_tokens := cfg.(maxTokens);
                   req_temperature := cfg.(temperature) |}])).
Proof.
  intros now this stale.
  assert (D : (List.length this.(productCache) =? 0)%nat
              || (now - this.(productCacheTime) >? CACHE_DURATION)%Z = true
              <-> stale).
  { unfold stale, CACHE_DURATION. rewrite orb_true_iff, Nat.eqb_eq, Z.gtb_ltb, Z.ltb_lt.
    rewrite length_zero_iff_nil. simpl. split; (intros [H|H]; [now left | right; lia]). }
  split; [|split; [|split]].
  - intros N catalog. unfold getProductContext.
    destruct (_ || _)%bool; [|reflexivity].
    exfalso. now apply N, D.
  - intros S fetched. apply D in S. unfold getProductContext. now rewrite S.
  - intros S reason. apply D in S. unfold getProductContext. now rewrite S.
  - intros S cfg userMessage reason answer V question. apply D in S.
    unfold sendMessage, enhanceMessageWithContext, getProductContext.
    rewrite V, S. reflexivity.
Qed.

(** A cache that is six minutes old, [Scenario.staleService] at 361000 ms, and the
    same cache one minute old. *)
Lemma getProductContext_cache_witness :
  getProductContext 61000 (JS.Rejected JS.OtherValue) Scenario.staleService
  = (formatProductsForAI [Scenario.deskLamp], Scenario.staleService, [])
  /\ getProductContext 361000 (JS.Fulfilled [Scenario.usbCable]) Scenario.staleService
     = (formatProductsForAI [Scenario.usbCable],
        {| conversationHistory := [systemMessage];
           productCache := [Scenario.usbCable];
           productCacheTime := 361000 |},
        [GetProducts 50 None])
  /\ getProductContext 361000 (JS.Rejected (JS.newError "Failed to fetch"))
       Scenario.staleService
     = ("Product information is currently unavailable.", Scenario.staleService,
        [GetProducts 50 None])
  /\ fst (fst (sendMessage Scenario.cfg "Any lamps?" true 361000
                 (JS.Rejected (JS.newError "Failed to fetch"))
                 Scenario.sampleReply Scenario.staleService))
     = JS.Fulfilled "We have a wireless mouse.".
Proof.
  split; [|split; [|split]].
  - apply (getProductContext_cache 61000 Scenario.staleService).
    simpl. intros [H|H]; [discriminate H | lia].
  - apply (getProductContext_cache 361000 Scenario.staleService).
    simpl. right. lia.
  - apply (getProductContext_cache 361000 Scenario.staleService).
    simpl. right. lia.
  - unfold Scenario.sampleReply.
    rewrite (proj2 (proj2 (proj2 (getProductContext_cache 361000 Scenario.staleService))));
      [reflexivity | simpl; right; lia | reflexivity].
Defined.

End OpenAIFacts.

(** ** The conversation manager *)

Module UseChatFacts.
Import WooCommerce UseChat.



(** What an accepted [sendMessage] has done when it reaches its [await]. *)
Lemma sendMessage_begin_accepted (products : list WooCommerceProduct)
  (content : string) (clock : Clock) (st : State) :
  st.(isLoading) = false ->
  JS.whitespaceOnly content = false ->
  sendMessage_begin products content clock st
  = Some ({| messages :=
               st.(messages)
               ++ [{| id := "user-" ++ JS.numToString clock.(dateNow);
                      role := user;
                      content := JS.trim content;
                      timestamp := clock.(newDate) |}];
             isLoading := true;
             error := None;
             lastUserMessageRef := JS.trim content;
             abortControllerRef := Some st.(controllers);
             controllers := S st.(controllers);
             abortedControllers :=
               abortCurrent st.(abortControllerRef) st.(abortedControllers) |},
          {| req_content := JS.trim content;
             req_products := products;
             req_signal := st.(controllers) |}).
Proof.
  intros L W. unfold sendMessage_begin.
  now rewrite JSFacts.truthy_trim, W, L.
Qed.

(** C5. When the request of an accepted [sendMessage] fails with anything
    but an [AbortError], the error state becomes the message of the error
    (or a fixed text for a thrown value that is no [Error]), and the
    transcript gains exactly the user turn and one assistant turn whose text
    is [I apologize, but I encountered an error: ] followed by that message
    and [. Please try again.]; the loading flag is cleared. *)
Theorem failure_is_reported :
  forall (products : list WooCommerceProduct) (content : string)
         (clock clock' : Clock) (err : JS.Thrown) (st : State),
    st.(isLoading) = false ->
    JS.whitespaceOnly content = false ->
    (forall message, err <> JS.ErrorObject "AbortError" message) ->
    let errorMessage :=
      match err with
      | JS.ErrorObject _ message => message
      | JS.OtherValue => "Failed to get response from AI"
      end in
    exists st' request,
      sendMessage products content clock (JS.Rejected err) clock' st
      = (st', [request])
      /\ request.(req_content) = JS.trim content
      /\ st'.(error) = Some errorMessage
      /\ st'.(messages)
         = (st.(messages)
            ++ [{| id := "user-" ++ JS.numToString clock.(dateNow);
                   role := user;
                   content := JS.trim content;
                   timestamp := clock.(newDate) |};
                {| id := "error-" ++ JS.numToString clock'.(dateNow);
                   role := assistant;
                   content := "I apologize, but I encountered an error: "
                                ++ errorMessage ++ ". Please try again.";
                   timestamp := clock'.(newDate) |}])%list
      /\ List.length st'.(messages) = (List.length st.(messages) + 2)%nat
      /\ st'.(isLoading) = false
      /\ st'.(abortControllerRef) = None.
Proof.
  intros products content clock clock' err st L W NA errorMessage.
  assert (A : isAbortError err = false).
  { destruct err as [name message|]; [|reflexivity]. simpl.
    apply String.eqb_neq. intros ->. now apply (NA message). }
  unfold sendMessage.
  rewrite (sendMessage_begin_accepted products content clock st L W).
  eexists; eexists. split; [reflexivity|].
  unfold sendMessage_settle. rewrite A.
  cbn [messages error isLoading abortControllerRef req_content].
  fold errorMessage.
  replace (errorMessageOf err) with errorMessage by (now destruct err).
  repeat split.
  - now rewrite <- app_assoc.
  - rewrite !length_app. simpl. lia.
Qed.

(** The completion API answers HTTP 401 with the message [invalid api key]. *)
Lemma failure_is_reported_witness :
  exists st' request,
    sendMessage Scenario.catalog "  Any mouse?  " Scenario.noon
      (JS.Rejected Scenario.unauthorized) Scenario.afterNoon initial
    = (st', [request])
    /\ request.(req_content) = "Any mouse?"
    /\ st'.(error) = Some "invalid api key"
    /\ st'.(messages)
       = [{| id := "user-1765133457841";
             role := user;
             content := "Any mouse?";
             timestamp := 1765133457841 |};
          {| id := "error-1765133458900";
             role := assistant;
             content := "I apologize, but I encountered an error: invalid api key. Please try again.";
             timestamp := 1765133458901 |}]
    /\ List.length st'.(messages) = 2%nat
    /\ st'.(isLoading) = false
    /\ st'.(abortControllerRef) = None.
Proof.
  apply (failure_is_reported Scenario.catalog "  Any mouse?  " Scenario.noon
           Scenario.afterNoon Scenario.unauthorized initial).
  - reflexivity.
  - reflexivity.
  - intros message. discriminate.
Defined.

(** C6. When the request of an accepted [sendMessage] fails with an
    [AbortError], nothing is appended and no error is set: the transcript
    holds the user turn added at submission and nothing more, the error
    state is unset, and the loading flag is cleared. At the point of failure
    itself the transcript and the error state are left as they are. *)
Theorem abort_is_silent :
  forall (products : list WooCommerceProduct) (content : string)
         (clock clock' : Clock) (message : string) (st : State),
    st.(isLoading) = false ->
    JS.whitespaceOnly content = false ->
    (exists st' request,
       sendMessage products content clock
         (JS.Rejected (JS.ErrorObject "AbortError" message)) clock' st
       = (st', [request])
       /\ st'.(messages)
          = (st.(messages)
             ++ [{| id := "user-" ++ JS.numToString clock.(dateNow);
                    role := user;
                    content := JS.trim content;
                    timestamp := clock.(newDate) |}])%list
       /\ st'.(error) = None
       /\ st'.(isLoading) = false
       /\ st'.(abortControllerRef) = None)
    /\ (forall pending : State,
          let st' :=
            sendMessage_settle
              (JS.Rejected (JS.ErrorObject "AbortError" message)) clock'
              pending in
          st'.(messages) = pending.(messages)
          /\ st'.(error) = pending.(error)).
Proof.
  intros products content clock clock' message st L W. split.
  - unfold sendMessage.
    rewrite (sendMessage_begin_accepted products content clock st L W).
    eexists; eexists. split; [reflexivity|]. repeat split.
  - intros pending. split; reflexivity.
Qed.

(** The first question is cancelled while under way. *)
Lemma abort_is_silent_witness :
  (exists st' request,
     sendMessage Scenario.catalog "  Any mouse?  " Scenario.noon
       (JS.Rejected
          (JS.ErrorObject "AbortError" "The user aborted a request."))
       Scenario.afterNoon initial
     = (st', [request])
     /\ st'.(messages)
        = [{| id := "user-1765133457841";
              role := user;
              content := "Any mouse?";
              timestamp := 1765133457841 |}]
     /\ st'.(error) = None
     /\ st'.(isLoading) = false
     /\ st'.(abortControllerRef) = None)
  /\ (forall pending : State,
        let st' :=
          sendMessage_settle
            (JS.Rejected
               (JS.ErrorObject "AbortError" "The user aborted a request."))
            Scenario.afterNoon pending in
        st'.(messages) = pending.(messages)
        /\ st'.(error) = pending.(error)).
Proof.
  apply (abort_is_silent Scenario.catalog "  Any mouse?  " Scenario.noon
           Scenario.afterNoon "The user aborted a request." initial);
    reflexivity.
Defined.

Lemma clearMessages_aborts_held (st : State) (c : nat) :
  st.(abortControllerRef) = Some c -> aborted c (clearMessages st) = true.
Proof.
  intros E. unfold aborted, clearMessages. simpl. rewrite E. simpl.
  now rewrite Nat.eqb_refl.
Qed.

Lemma clearMessages_keeps_aborted (st : State) (c : nat) :
  aborted c st = true -> aborted c (clearMessages st) = true.
Proof.
  unfold aborted, clearMessages. simpl.
  destruct (abortControllerRef st); simpl; [|trivial].
  intros ->. apply orb_true_r.
Qed.

(** C7. From any state [clearMessages] leaves the transcript empty, the
    error unset and the remembered last user text empty, and it aborts the
    controller the hook holds and lets go of it. But it does not abort every
    request under way. Two [sendMessage] calls through the callbacks of the
    first render both pass the guard; the second aborts the controller of
    the first and holds its own; the first settles by that abort and its
    [finally] empties the handle, which by then is the second's. The second
    request is still under way, and [clearMessages] finds no controller to
    abort: the signal of the second request stays as it was. *)
Theorem clearMessages_misses_overlapping_request :
  (forall st : State,
     (clearMessages st).(messages) = []
     /\ (clearMessages st).(error) = None
     /\ (clearMessages st).(lastUserMessageRef) = EmptyString
     /\ (clearMessages st).(abortControllerRef) = None
     /\ (forall c, st.(abortControllerRef) = Some c ->
           aborted c (clearMessages st) = true))
  /\ live Scenario.catalog true Samples.twoSends
       [Samples.firstRequest; Samples.secondRequest]
  /\ aborted 0 Samples.twoSends = true
  /\ Samples.twoSends.(abortControllerRef) = Some 1%nat
  /\ live Scenario.catalog true Samples.firstAborted [Samples.secondRequest]
  /\ Samples.firstAborted.(isLoading) = false
  /\ Samples.firstAborted.(abortControllerRef) = None
  /\ aborted 1 Samples.firstAborted = false
  /\ aborted 1 (clearMessages Samples.firstAborted) = false
  /\ (clearMessages Samples.firstAborted).(messages) = [].
Proof.
  assert (L1 : live Scenario.catalog false Scenario.inFlight
                 [Samples.firstRequest]).
  { exact (live_send Scenario.catalog false initial [] "  Any mouse?  "
             Scenario.noon Scenario.inFlight Samples.firstRequest
             (live_initial Scenario.catalog) eq_refl). }
  assert (L2 : live Scenario.catalog true Samples.twoSends
                 [Samples.firstRequest; Samples.secondRequest]).
  { exact (live_send Scenario.catalog false Scenario.inFlight
             [Samples.firstRequest] "And a cable?" Scenario.afterNoon
             Samples.twoSends Samples.secondRequest L1 eq_refl). }
  split; [|split; [exact L2|]].
  - intros st. repeat split. apply clearMessages_aborts_held.
  - split; [reflexivity|]. split; [reflexivity|]. split.
    + exact (live_settle Scenario.catalog true Samples.twoSends []
               Samples.firstRequest [Samples.secondRequest]
               (JS.Rejected Samples.abortError) Scenario.afterNoon L2).
    + repeat split.
Qed.

(** *** Retry *)

(** The remembered text is always a trimmed one. *)
(** What one action does: it starts a request, on the state as a callback
    sees it, after dropping the last assistant message or not; or it settles
    one, or it clears, or it changes nothing. *)
Lemma step_cases (products : list WooCommerceProduct) (a : Action) (st : State) :
  (exists content clock st0 request,
     (st0 = st \/ st0 = seeing false st
      \/ st0 = setMessages dropLastAssistant st
      \/ st0 = setMessages dropLastAssistant (seeing false st))
     /\ sendMessage_begin products content clock st0
        = Some (step products a st, request))
  \/ (exists outcome clock,
        step products a st = sendMessage_settle outcome clock st)
  \/ step products a st = clearMessages st
  \/ step products a st = st.
Proof.
  destruct a as [content clock|outcome clock|clock| |content clock|clock];
    cbn [step].
  - destruct (sendMessage_begin products content clock st)
      as [[st1 request]|] eqn:E; [left|tauto].
    exists content, clock, st, request. split; [now left | exact E].
  - right. left. now exists outcome, clock.
  - unfold retryLastMessage_begin. destruct (_ && _); [|tauto].
    destruct (sendMessage_begin products (lastUserMessageRef st) clock
                (setMessages dropLastAssistant st))
      as [[st1 request]|] eqn:E; [left|tauto].
    exists (lastUserMessageRef st), clock,
      (setMessages dropLastAssistant st), request.
    split; [tauto | exact E].
  - tauto.
  - destruct (sendMessage_begin products content clock (seeing false st))
      as [[st1 request]|] eqn:E; [left|tauto].
    exists content, clock, (seeing false st), request.
    split; [tauto | exact E].
  - unfold retryLastMessage_begin. destruct (_ && _); [|tauto].
    destruct (sendMessage_begin products
                (lastUserMessageRef (seeing false st)) clock
                (setMessages dropLastAssistant (seeing false st)))
      as [[st1 request]|] eqn:E; [left|tauto].
    exists (lastUserMessageRef (seeing false st)), clock,
      (setMessages dropLastAssistant (seeing false st)), request.
    split; [tauto | exact E].
Qed.

Lemma sendMessage_settle_keeps (outcome : JS.Settled string) (clock : Clock)
  (st : State) :
  (sendMessage_settle outcome clock st).(lastUserMessageRef)
  = st.(lastUserMessageRef)
  /\ (sendMessage_settle outcome clock st).(controllers) = st.(controllers)
  /\ (sendMessage_settle outcome clock st).(abortedControllers)
     = st.(abortedControllers)
  /\ (sendMessage_settle outcome clock st).(isLoading) = false
  /\ (sendMessage_settle outcome clock st).(abortControllerRef) = None.
Proof.
  unfold sendMessage_settle.
  destruct outcome as [response|err]; [|destruct (isAbortError err)];
    repeat split.
Qed.


Lemma dropLastAssistant_snoc (init : list Message) (m : Message) :
  dropLastAssistant (init ++ [m])
  = match m.(role) with
    | assistant => init
    | user => (init ++ [m])%list
    end.
Proof.
  unfold dropLastAssistant.
  rewrite length_app. simpl.
  replace (List.length init + 1 - 1)%nat with (List.length init) by lia.
  rewrite nth_error_app2, Nat.sub_diag by lia. simpl.
  destruct (role m); [reflexivity|].
  rewrite firstn_app, Nat.sub_diag, firstn_all. simpl. apply app_nil_r.
Qed.



End UseChatFacts.

(** ** More about the relevance scorer *)

Module ScorerFacts.
Import WooCommerce.

Lemma lowerChar_idem (c : ascii) : JS.lowerChar (JS.lowerChar c) = JS.lowerChar c.
Proof.
  destruct c as [b0 b1 b2 b3 b4 b5 b6 b7].
  destruct b0, b1, b2, b3, b4, b5, b6, b7; reflexivity.
Qed.

Lemma toLowerCase_idem (s : string) :
  JS.toLowerCase (JS.toLowerCase s) = JS.toLowerCase s.
Proof.
  induction s as [|c s IH]; simpl; [reflexivity|].
  now rewrite lowerChar_idem, IH.
Qed.

Lemma sort_ext {A : Type} (f g : A -> A -> Z) (l : list A) :
  (forall a b, f a b = g a b) -> JS.sort f l = JS.sort g l.
Proof.
  intros E. induction l as [|x l IH]; [reflexivity|].
  cbn [JS.sort fold_right]. fold (JS.sort f l) (JS.sort g l). rewrite IH.
  generalize (JS.sort g l) as sorted. intros sorted.
  induction sorted as [|y sorted IHs]; [reflexivity|].
  cbn [JS.insertBy]. now rewrite E, IHs.
Qed.

(** The result depends on the query through the scores only. *)
Lemma findRelevantProducts_ext (products : list WooCommerceProduct)
  (q1 q2 : string) :
  (forall p, App.scoreOf (App.keywordsOf q1) p = App.scoreOf (App.keywordsOf q2) p) ->
  App.findRelevantProducts products q1 = App.findRelevantProducts products q2.
Proof.
  intros E. rewrite !AppFacts.findRelevantProducts_eq. f_equal.
  rewrite (filter_ext _ (fun p => (0 <? App.scoreOf (App.keywordsOf q2) p)%Z))
    by (intros p; now rewrite E).
  apply sort_ext. intros a b. unfold JS.descending. now rewrite !E.
Qed.

Lemma scoreOf_nil (p : WooCommerceProduct) : App.scoreOf [] p = 0%Z.
Proof. reflexivity. Qed.

Lemma scoreOf_cons (p : WooCommerceProduct) (k : string) (ks : list string) :
  App.scoreOf (k :: ks) p = (App.scoreKeyword p 0 k + App.scoreOf ks p)%Z.
Proof.
  pose proof (AppFacts.scoreOf_insert p [] ks k) as H.
  cbn [app] in H. lia.
Qed.

Lemma scoreOf_app (p : WooCommerceProduct) (ks1 ks2 : list string) :
  App.scoreOf (ks1 ++ ks2) p = (App.scoreOf ks1 p + App.scoreOf ks2 p)%Z.
Proof.
  induction ks1 as [|k ks1 IH]; [reflexivity|].
  change ((k :: ks1) ++ ks2)%list with (k :: (ks1 ++ ks2))%list.
  rewrite !scoreOf_cons, IH. lia.
Qed.

Lemma scoreOf_perm (p : WooCommerceProduct) (ks1 ks2 : list string) :
  Permutation ks1 ks2 -> App.scoreOf ks1 p = App.scoreOf ks2 p.
Proof.
  induction 1 as [|k ks1 ks2 _ IH|k1 k2 ks|ks1 ks2 ks3 _ IH1 _ IH2].
  - reflexivity.
  - now rewrite !scoreOf_cons, IH.
  - rewrite !scoreOf_cons. lia.
  - now rewrite IH1.
Qed.

Lemma scoreOf_bounds (p : WooCommerceProduct) (ks : list string) :
  (0 <= App.scoreOf ks p <= 4 * Z.of_nat (List.length ks))%Z.
Proof.
  induction ks as [|k ks IH]; [rewrite scoreOf_nil; simpl; lia|].
  rewrite scoreOf_cons. pose proof (AppFacts.weight_bounds p k).
  cbn [List.length]. lia.
Qed.

(** A positive score comes from a keyword that the searchable text holds. *)
Lemma positive_score_has_match (p : WooCommerceProduct) (ks : list string) :
  (0 < App.scoreOf ks p)%Z ->
  exists k, In k ks /\ JS.includes (App.productText p) k = true.
Proof.
  induction ks as [|k ks IH]; [rewrite scoreOf_nil; lia|].
  rewrite scoreOf_cons. intros H.
  destruct (JS.includes (App.productText p) k) eqn:T.
  - exists k. split; [now left | exact T].
  - assert (W : App.scoreKeyword p 0 k = 0%Z).
    { unfold App.scoreKeyword. rewrite T.
      destruct (JS.includes (JS.toLowerCase (name p)) k) eqn:N; [|reflexivity].
      rewrite (AppFacts.name_in_productText p k N) in T. discriminate. }
    destruct IH as [k' [I M]]; [lia|].
    exists k'. split; [now right | exact M].
Qed.

Lemma In_firstn {A : Type} (n : nat) (l : list A) (x : A) :
  In x (firstn n l) -> In x l.
Proof.
  intros I. rewrite <- (firstn_skipn n l). apply in_or_app. now left.
Qed.

Lemma In_findRelevantProducts (products : list WooCommerceProduct)
  (query : string) (p : WooCommerceProduct) :
  In p (App.findRelevantProducts products query) ->
  In p products /\ (0 < App.scoreOf (App.keywordsOf query) p)%Z.
Proof.
  rewrite AppFacts.findRelevantProducts_eq. intros I.
  apply In_firstn in I.
  apply (Permutation_in p (JSFacts.sort_perm _ _)) in I.
  apply filter_In in I. destruct I as [I P]. split; [exact I|].
  now apply Z.ltb_lt.
Qed.

(** X1. A query none of whose words is longer than two characters finds
    nothing, whatever the catalog: the scorer returns no product and the
    context block is the fallback sentence. *)
Theorem short_words_find_nothing :
  forall (products : list WooCommerceProduct) (query : string),
    Forall (fun word => (String.length word <= 2)%nat)
      (JS.split " " (JS.toLowerCase query)) ->
    App.findRelevantProducts products query = []
    /\ App.assembleContext products query = App.noProductsFound.
Proof.
  intros products query H.
  assert (K : App.keywordsOf query = []).
  { unfold App.keywordsOf. cbv zeta.
    induction H as [|w ws Hw _ IH]; [reflexivity|].
    cbn [filter]. rewrite IH.
    destruct (2 <? String.length w)%nat eqn:E; [|reflexivity].
    apply Nat.ltb_lt in E. lia. }
  assert (E : App.findRelevantProducts products query = []).
  { rewrite AppFacts.findRelevantProducts_eq, K.
    replace (filter (fun p => (0 <? App.scoreOf [] p)%Z) products)
      with (@nil WooCommerceProduct); [reflexivity|].
    induction products as [|p products IH]; [reflexivity|]. exact IH. }
  split; [exact E|]. unfold App.assembleContext. now rewrite E.
Qed.

Lemma short_words_find_nothing_witness :
  App.findRelevantProducts Scenario.catalog "TV or PC" = []
  /\ App.assembleContext Scenario.catalog "TV or PC" = App.noProductsFound.
Proof.
  apply (short_words_find_nothing Scenario.catalog "TV or PC").
  repeat constructor.
Defined.

(** X2. The case of the query does not matter: two queries with the same
    lowercase form find the same products in the same order, and so do a
    query and its lowercase form. *)
Theorem query_case_is_ignored :
  forall (products : list WooCommerceProduct) (q1 q2 : string),
    JS.toLowerCase q1 = JS.toLowerCase q2 ->
    App.findRelevantProducts products q1 = App.findRelevantProducts products q2
    /\ App.findRelevantProducts products (JS.toLowerCase q1)
       = App.findRelevantProducts products q1.
Proof.
  intros products q1 q2 E. split; apply findRelevantProducts_ext; intros p;
    unfold App.keywordsOf; cbv zeta.
  - now rewrite E.
  - now rewrite toLowerCase_idem.
Qed.

Lemma query_case_is_ignored_witness :
  App.findRelevantProducts Scenario.catalog "WIRELESS Mouse"
  = App.findRelevantProducts Scenario.catalog "wireless MOUSE"
  /\ App.findRelevantProducts Scenario.catalog (JS.toLowerCase "WIRELESS Mouse")
     = App.findRelevantProducts Scenario.catalog "WIRELESS Mouse".
Proof.
  apply (query_case_is_ignored Scenario.catalog "WIRELESS Mouse"
           "wireless MOUSE").
  reflexivity.
Defined.

(** X3. The order of the words of the query does not matter: two queries
    with the same keywords, in any order, give every product the same score
    and find the same products in the same order. *)
Theorem keyword_order_is_ignored :
  forall (products : list WooCommerceProduct) (q1 q2 : string),
    Permutation (App.keywordsOf q1) (App.keywordsOf q2) ->
    (forall p, App.scoreOf (App.keywordsOf q1) p
               = App.scoreOf (App.keywordsOf q2) p)
    /\ App.findRelevantProducts products q1
       = App.findRelevantProducts products q2.
Proof.
  intros products q1 q2 P.
  assert (E : forall p, App.scoreOf (App.keywordsOf q1) p
                        = App.scoreOf (App.keywordsOf q2) p)
    by (intros p; now apply scoreOf_perm).
  split; [exact E | now apply findRelevantProducts_ext].
Qed.

Lemma keyword_order_is_ignored_witness :
  (forall p, App.scoreOf (App.keywordsOf "wireless mouse") p
             = App.scoreOf (App.keywordsOf "mouse wireless") p)
  /\ App.findRelevantProducts Scenario.catalog "wireless mouse"
     = App.findRelevantProducts Scenario.catalog "mouse wireless".
Proof.
  apply (keyword_order_is_ignored Scenario.catalog "wireless mouse"
           "mouse wireless").
  apply perm_swap.
Defined.

(** X4. Every product the scorer returns is a product of the catalog whose
    searchable text holds at least one keyword of the query; and its score
    lies between 1 and 4 times the number of keywords. *)
Theorem relevant_products_match_a_keyword :
  forall (products : list WooCommerceProduct) (query : string)
         (p : WooCommerceProduct),
    In p (App.findRelevantProducts products query) ->
    In p products
    /\ (exists keyword,
          In keyword (App.keywordsOf query)
          /\ JS.includes (App.productText p) keyword = true)
    /\ (1 <= App.scoreOf (App.keywordsOf query) p
        <= 4 * Z.of_nat (List.length (App.keywordsOf query)))%Z.
Proof.
  intros products query p I.
  apply In_findRelevantProducts in I. destruct I as [I P].
  split; [exact I|]. split; [now apply positive_score_has_match|].
  pose proof (scoreOf_bounds p (App.keywordsOf query)). lia.
Qed.

Lemma relevant_products_match_a_keyword_witness :
  In Scenario.usbCable Scenario.catalog
  /\ (exists keyword,
        In keyword (App.keywordsOf "wireless mouse")
        /\ JS.includes (App.productText Scenario.usbCable) keyword = true)
  /\ (1 <= App.scoreOf (App.keywordsOf "wireless mouse") Scenario.usbCable
      <= 4 * Z.of_nat (List.length (App.keywordsOf "wireless mouse")))%Z.
Proof.
  apply (relevant_products_match_a_keyword Scenario.catalog "wireless mouse"
           Scenario.usbCable).
  right. left. reflexivity.
Defined.

Lemma sorted_app_cross {A : Type} (R : A -> A -> Prop) (l1 l2 : list A) :
  StronglySorted R (l1 ++ l2) ->
  forall a b, In a l1 -> In b l2 -> R a b.
Proof.
  induction l1 as [|x l1 IH]; intros S a b Ia Ib; [destruct Ia|].
  apply StronglySorted_inv in S. destruct S as [S F].
  destruct Ia as [<-|Ia]; [|now apply IH].
  rewrite Forall_forall in F. apply F, in_or_app. now right.
Qed.

(** X5. The cut to five drops the weakest: the products of positive score
    are the ones returned together with the ones dropped, no dropped product
    scores higher than a returned one, nothing is dropped when at most five
    products have a positive score, and the number returned is the smaller
    of 5 and the number of products of positive score. *)
Theorem cutoff_drops_the_weakest :
  forall (products : list WooCommerceProduct) (query : string),
    let score := App.scoreOf (App.keywordsOf query) in
    let positive := filter (fun p => (0 <? score p)%Z) products in
    exists dropped : list WooCommerceProduct,
      Permutation (App.findRelevantProducts products query ++ dropped) positive
      /\ (forall kept d,
            In kept (App.findRelevantProducts products query) ->
            In d dropped -> (score d <= score kept)%Z)
      /\ ((List.length positive <= 5)%nat -> dropped = [])
      /\ List.length (App.findRelevantProducts products query)
         = Nat.min 5 (List.length positive).
Proof.
  intros products query score positive.
  rewrite AppFacts.findRelevantProducts_eq. fold score. fold positive.
  pose proof (JSFacts.sort_perm score positive) as P.
  pose proof (JSFacts.sort_sorted score positive) as S.
  set (sorted := JS.sort (JS.descending score) positive) in *.
  exists (skipn 5 sorted). split; [|split; [|split]].
  - now rewrite firstn_skipn.
  - intros kept d Ik Id. rewrite <- (firstn_skipn 5 sorted) in S.
    exact (sorted_app_cross _ _ _ S kept d Ik Id).
  - intros L. apply skipn_all2. now rewrite (Permutation_length P).
  - rewrite length_firstn. now rewrite (Permutation_length P).
Qed.

(** *** Queries joined by a space *)

Lemma split_not_nil (sep : ascii) (s : string) : JS.split sep s <> [].
Proof.
  destruct s as [|c s]; simpl; [discriminate|].
  destruct (Ascii.eqb c sep); [discriminate|].
  destruct (JS.split sep s); discriminate.
Qed.

Lemma split_app_sep (sep : ascii) (a b : string) :
  JS.split sep (a ++ String sep b) = (JS.split sep a ++ JS.split sep b)%list.
Proof.
  induction a as [|c a IH].
  - cbn [append JS.split]. now rewrite Ascii.eqb_refl.
  - change (String c a ++ String sep b) with (String c (a ++ String sep b)).
    cbn [JS.split]. rewrite IH.
    destruct (Ascii.eqb c sep); [reflexivity|].
    pose proof (split_not_nil sep a) as N.
    destruct (JS.split sep a) as [|w ws]; [contradiction | reflexivity].
Qed.

Lemma keywordsOf_joined (q1 q2 : string) :
  App.keywordsOf (q1 ++ " " ++ q2)
  = (App.keywordsOf q1 ++ App.keywordsOf q2)%list.
Proof.
  unfold App.keywordsOf. cbv zeta.
  rewrite JSFacts.toLowerCase_app.
  change (JS.toLowerCase (" " ++ q2)) with (String " " (JS.toLowerCase q2)).
  now rewrite split_app_sep, filter_app.
Qed.

(** X6. Scores add up over the words of the query: for two queries joined
    by a space, the keywords are those of the first followed by those of the
    second, and every product's score is the sum of its scores for the two.
    So a word that is repeated counts each time. *)
Theorem joined_queries_add_up :
  forall (q1 q2 : string) (p : WooCommerceProduct),
    App.keywordsOf (q1 ++ " " ++ q2)
    = (App.keywordsOf q1 ++ App.keywordsOf q2)%list
    /\ App.scoreOf (App.keywordsOf (q1 ++ " " ++ q2)) p
       = (App.scoreOf (App.keywordsOf q1) p
          + App.scoreOf (App.keywordsOf q2) p)%Z
    /\ App.scoreOf (App.keywordsOf (q1 ++ " " ++ q1)) p
       = (2 * App.scoreOf (App.keywordsOf q1) p)%Z.
Proof.
  intros q1 q2 p. split; [apply keywordsOf_joined|].
  rewrite !keywordsOf_joined, !scoreOf_app. split; lia.
Qed.

(** *** The description in a product line *)

Lemma substring0_prefix (n : nat) (s : string) :
  exists rest,
    s = String.substring 0 n s ++ rest
    /\ String.length (String.substring 0 n s) = Nat.min n (String.length s).
Proof.
  revert s. induction n as [|n IH]; intros s.
  - exists s. destruct s; split; reflexivity.
  - destruct s as [|c s]; [exists EmptyString; split; reflexivity|].
    destruct (IH s) as [rest [E L]]. exists rest. cbn [String.substring].
    split; [cbn [append]; now rewrite <- E | cbn [String.length Nat.min]; now rewrite L].
Qed.

(** X7. For a product without short description the line of the context
    block shows the beginning of the description and at most 100 characters
    of it: the whole description when it is that short, its first 100
    characters otherwise. *)
Theorem product_line_snippet :
  forall p : WooCommerceProduct,
    short_description p = EmptyString ->
    exists snippet rest,
      description p = snippet ++ rest
      /\ String.length snippet = Nat.min 100 (String.length (description p))
      /\ ((String.length (description p) <= 100)%nat -> snippet = description p)
      /\ App.productLine p
         = "- " ++ name p ++ ": " ++ snippet
             ++ " (Price: $" ++ price p ++ ", Stock: " ++ stock_status p ++ ")".
Proof.
  intros p E.
  destruct (substring0_prefix 100 (description p)) as [rest [D L]].
  exists (String.substring 0 100 (description p)), rest.
  split; [exact D|]. split; [exact L|]. split.
  - intros Short.
    assert (R : String.length rest = 0%nat).
    { assert (T : String.length (description p)
                  = (String.length (String.substring 0 100 (description p))
                     + String.length rest)%nat).
      { rewrite D at 1. clear.
        induction (String.substring 0 100 (description p)) as [|c s IH];
          [reflexivity | cbn [append String.length]; now rewrite IH]. }
      lia. }
    destruct rest; [|discriminate R].
    rewrite D at 2. now rewrite JSFacts.append_nil_r.
  - unfold App.productLine, JS.orElse. rewrite E. reflexivity.
Qed.

Lemma product_line_snippet_witness :
  exists snippet rest,
    description Scenario.usbCable = snippet ++ rest
    /\ String.length snippet
       = Nat.min 100 (String.length (description Scenario.usbCable))
    /\ ((String.length (description Scenario.usbCable) <= 100)%nat ->
        snippet = description Scenario.usbCable)
    /\ App.productLine Scenario.usbCable
       = "- " ++ name Scenario.usbCable ++ ": " ++ snippet
           ++ " (Price: $" ++ price Scenario.usbCable ++ ", Stock: "
           ++ stock_status Scenario.usbCable ++ ")".
Proof.
  apply (product_line_snippet Scenario.usbCable). reflexivity.
Defined.

End ScorerFacts.

(** ** The catalog formatter *)

Module FormatFacts.
Import WooCommerce.

(** Every [>] of the output was in the input. *)
Lemma hasGt_stripTagsFrom (inTag : bool) (s : string) :
  JS.hasGt s = false -> JS.hasGt (JS.stripTagsFrom inTag s) = false.
Proof.
  revert inTag. induction s as [|c s IH]; intros inTag H; [reflexivity|].
  cbn [JS.hasGt] in H. apply orb_false_iff in H. destruct H as [Hc Hs].
  cbn [JS.stripTagsFrom]. rewrite Hc, Hs, andb_false_r.
  destruct inTag; [now apply IH|].
  cbn [JS.hasGt]. rewrite Hc. now apply IH.
Qed.

Lemma stripTagsFrom_tagFree (inTag : bool) (s : string) :
  Markup.tagFree (JS.stripTagsFrom inTag s).
Proof.
  revert inTag. induction s as [|c s IH]; intros inTag a b E.
  - destruct a; discriminate E.
  - cbn [JS.stripTagsFrom] in E. destruct inTag.
    + destruct (Ascii.eqb c ">"); exact (IH _ a b E).
    + destruct (Ascii.eqb c "<" && JS.hasGt s) eqn:T; [exact (IH _ a b E)|].
      destruct a as [|d a].
      * cbn [append] in E. injection E as -> <-.
        rewrite Ascii.eqb_refl in T. cbn [andb] in T.
        now apply hasGt_stripTagsFrom.
      * cbn [append] in E. injection E as _ E. exact (IH _ a b E).
Qed.

Lemma stripTagsFrom_of_tagFree (s : string) :
  Markup.tagFree s -> JS.stripTagsFrom false s = s.
Proof.
  induction s as [|c s IH]; intros F; [reflexivity|].
  cbn [JS.stripTagsFrom].
  assert (T : Ascii.eqb c "<" && JS.hasGt s = false).
  { destruct (Ascii.eqb c "<") eqn:C; [|reflexivity].
    apply Ascii.eqb_eq in C. subst c. cbn [andb].
    exact (F EmptyString s eq_refl). }
  rewrite T. f_equal. apply IH.
  intros a b E. apply (F (String c a) b). cbn [append]. now rewrite E.
Qed.

Lemma length_stripTagsFrom (inTag : bool) (s : string) :
  (String.length (JS.stripTagsFrom inTag s) <= String.length s)%nat.
Proof.
  revert inTag. induction s as [|c s IH]; intros inTag; [reflexivity|].
  cbn [JS.stripTagsFrom String.length].
  destruct inTag.
  - destruct (Ascii.eqb c ">"); [specialize (IH false) | specialize (IH true)]; lia.
  - destruct (Ascii.eqb c "<" && JS.hasGt s);
      [specialize (IH true) | specialize (IH false); cbn [String.length]]; lia.
Qed.

Lemma hasTag_false (s : string) :
  Markup.hasTag s = false -> Markup.tagFree s.
Proof.
  induction s as [|c s IH]; intros H a b E.
  - destruct a; discriminate E.
  - cbn [Markup.hasTag] in H. apply orb_false_iff in H. destruct H as [H1 H2].
    destruct a as [|d a]; cbn [append] in E.
    + injection E as -> <-. now rewrite Ascii.eqb_refl in H1.
    + injection E as _ E. exact (IH H2 a b E).
Qed.

(** X8. What [formatProductForAI] makes of a short description holds no tag
    any more: no [<] of the stripped text is followed by a [>]. Stripping
    never makes the text longer, and stripping twice changes nothing more. *)
Theorem stripTags_leaves_no_tag :
  forall s : string,
    (forall a b : string,
       JS.stripTags s = a ++ String "<" b -> JS.hasGt b = false)
    /\ (String.length (JS.stripTags s) <= String.length s)%nat
    /\ JS.stripTags (JS.stripTags s) = JS.stripTags s.
Proof.
  intros s. split; [|split].
  - exact (stripTagsFrom_tagFree false s).
  - apply length_stripTagsFrom.
  - apply stripTagsFrom_of_tagFree, stripTagsFrom_tagFree.
Qed.

(** X9. A text in which no [<] is followed by a [>] comes out of the
    stripping as it went in: a lone [<], as in a comparison, is kept. *)
Theorem stripTags_keeps_plain_text :
  forall s : string,
    (forall a b : string, s = a ++ String "<" b -> JS.hasGt b = false) ->
    JS.stripTags s = s.
Proof.
  intros s F. now apply stripTagsFrom_of_tagFree.
Qed.

Lemma stripTags_keeps_plain_text_witness :
  JS.stripTags "fits tables < 2 m wide" = "fits tables < 2 m wide".
Proof.
  apply (stripTags_keeps_plain_text "fits tables < 2 m wide").
  apply hasTag_false. reflexivity.
Defined.

End FormatFacts.

(** ** More about the completion service *)

Module ServiceFacts.
Import WooCommerce OpenAI.

Lemma getProductContext_keeps_history (now : Z)
  (catalog : JS.Settled (list WooCommerceProduct)) (this : OpenAIService) :
  conversationHistory (snd (fst (getProductContext now catalog this)))
  = conversationHistory this.
Proof. apply OpenAIFacts.getProductContext_history. Qed.

(** X10. With an API key, [sendMessage] posts one completion request, whose
    messages are the whole history so far followed by the new user turn; the
    user turn is the text as given or, with product context, the text wrapped
    with the catalog. When the API answers with a choice and its message,
    the content is returned and the history grows by the user turn and the
    answer. When the request fails on the network, the response is not ok,
    its body cannot be read or it holds no choice, the call rejects and the
    history keeps the user turn. (These are the replies of
    [CompletionResponse]; a choice without message is not among them.) *)
Theorem sendMessage_records_the_turn :
  forall (cfg : OpenAIConfig) (userMessage : string)
         (includeProductContext : bool) (now : Z)
         (catalog : JS.Settled (list WooCommerceProduct))
         (reply : CompletionResponse) (this : OpenAIService),
    validateOpenAIConfig cfg = true ->
    let out :=
      sendMessage cfg userMessage includeProductContext now catalog reply this in
    exists (question : ChatMessage) (before : list Event),
      question.(role) = user
      /\ question.(content)
         = (if includeProductContext
            then "Available Products:" ++ LF
                   ++ fst (fst (getProductContext now catalog this))
                   ++ LF ++ LF ++ "Customer Question: " ++ userMessage
            else userMessage)
      /\ snd out
         = (before
            ++ [PostCompletion
                  {| req_model := cfg.(model);
                     req_messages :=
                       (this.(conversationHistory) ++ [question])%list;
                     req_max_tokens := cfg.(maxTokens);
                     req_temperature := cfg.(temperature) |}])%list
      /\ before
         = (if includeProductContext
            then snd (getProductContext now catalog this) else [])
      /\ match reply with
         | OkChoice answer =>
             fst (fst out) = JS.Fulfilled answer.(content)
             /\ (snd (fst out)).(conversationHistory)
                = (this.(conversationHistory) ++ [question; answer])%list
         | FetchRejected _ | NotOk _ _ | OkUnreadable _ | OkNoChoice _ =>
             (exists reason, fst (fst out) = JS.Rejected reason)
             /\ (snd (fst out)).(conversationHistory)
                = (this.(conversationHistory) ++ [question])%list
         end.
Proof.
  intros cfg userMessage include now catalog reply this V out.
  unfold out, sendMessage. rewrite V. cbn [negb].
  destruct include.
  - unfold enhanceMessageWithContext.
    pose proof (getProductContext_keeps_history now catalog this) as H.
    destruct (getProductContext now catalog this) as [[text this1] events1].
    cbn [fst snd] in *.
    eexists {| role := user; content := _ |}, events1.
    split; [reflexivity|]. split; [reflexivity|].
    destruct reply; cbn [fst snd push conversationHistory]; rewrite H;
      (split; [reflexivity|]); (split; [reflexivity|]);
      rewrite <- ?app_assoc; (split; [eauto | reflexivity]).
  - eexists {| role := user; content := _ |}, [].
    split; [reflexivity|]. split; [reflexivity|].
    destruct reply; cbn [fst snd push conversationHistory];
      (split; [reflexivity|]); (split; [reflexivity|]);
      rewrite <- ?app_assoc; (split; [eauto | reflexivity]).
Qed.

(** One answered question to the fresh service, without product context. *)
Lemma sendMessage_records_the_turn_witness :
  let out :=
    sendMessage Scenario.cfg "Any lamps?" false 0
      (JS.Rejected JS.OtherValue) Scenario.sampleReply newOpenAIService in
  exists (question : ChatMessage) (before : list Event),
    question.(role) = user
    /\ question.(content) = "Any lamps?"
    /\ snd out
       = (before
          ++ [PostCompletion
                {| req_model := "gpt-4o-mini";
                   req_messages := [systemMessage; question];
                   req_max_tokens := 1000;
                   req_temperature := (7, 10)%Z |}])%list
    /\ before = []
    /\ fst (fst out) = JS.Fulfilled "We have a wireless mouse."
    /\ (snd (fst out)).(conversationHistory)
       = [systemMessage; question;
          {| role := assistant; content := "We have a wireless mouse." |}].
Proof.
  exact (sendMessage_records_the_turn Scenario.cfg "Any lamps?" false 0
           (JS.Rejected JS.OtherValue) Scenario.sampleReply newOpenAIService
           eq_refl).
Defined.

(** X11. A question whose request failed before an answer was read stays in
    the conversation: when the request failed on the network, the response
    was not ok, its body could not be read or it held no choice, the request
    of the next [sendMessage] carries the failed question, in front of the
    new one. *)
Theorem failed_question_is_sent_again :
  forall (cfg : OpenAIConfig) (first second : string) (now now' : Z)
         (catalog catalog' : JS.Settled (list WooCommerceProduct))
         (failure reply' : CompletionResponse) (this : OpenAIService),
    validateOpenAIConfig cfg = true ->
    match failure with
    | FetchRejected _ | NotOk _ _ | OkUnreadable _ | OkNoChoice _ => True
    | OkChoice _ => False
    end ->
    let this' :=
      snd (fst (sendMessage cfg first false now catalog failure this)) in
    forall body,
      In (PostCompletion body)
         (snd (sendMessage cfg second false now' catalog' reply' this')) ->
      body.(req_messages)
      = (this.(conversationHistory)
         ++ [{| role := user; content := first |};
             {| role := user; content := second |}])%list.
Proof.
  intros cfg first second now now' catalog catalog' failure reply' this V F this'
    body I.
  assert (H : conversationHistory this'
              = (conversationHistory this
                 ++ [{| role := user; content := first |}])%list).
  { unfold this', sendMessage. rewrite V. cbn [negb].
    destruct failure; try reflexivity. destruct F. }
  unfold sendMessage in I. rewrite V in I. cbn [negb] in I.
  assert (B : body
              = {| req_model := model cfg;
                   req_messages :=
                     conversationHistory
                       (push {| role := user; content := second |} this');
                   req_max_tokens := maxTokens cfg;
                   req_temperature := temperature cfg |}).
  { destruct reply'; cbn [snd app] in I; destruct I as [I|[]];
      now injection I as <-. }
  rewrite B. cbn [req_messages push conversationHistory]. rewrite H.
  now rewrite <- app_assoc.
Qed.

Lemma failed_question_is_sent_again_witness :
  req_messages
    {| req_model := "gpt-4o-mini";
       req_messages :=
         [systemMessage;
          {| role := user; content := "Any lamps?" |};
          {| role := user; content := "And cables?" |}];
       req_max_tokens := 1000;
       req_temperature := (7, 10)%Z |}
  = (newOpenAIService.(conversationHistory)
     ++ [{| role := user; content := "Any lamps?" |};
         {| role := user; content := "And cables?" |}])%list.
Proof.
  apply (failed_question_is_sent_again Scenario.cfg "Any lamps?" "And cables?"
           0 0 (JS.Rejected JS.OtherValue) (JS.Rejected JS.OtherValue)
           (NotOk 500 BodyUnreadable) Scenario.sampleReply newOpenAIService).
  - reflexivity.
  - exact I.
  - left. reflexivity.
Defined.

(** *** Without an API key *)

Lemma sendMessage_unconfigured (cfg : OpenAIConfig) (userMessage : string)
  (includeProductContext : bool) (now : Z)
  (catalog : JS.Settled (list WooCommerceProduct))
  (reply : CompletionResponse) (this : OpenAIService) :
  validateOpenAIConfig cfg = false ->
  sendMessage cfg userMessage includeProductContext now catalog reply this
  = (JS.Rejected (JS.newError notConfigured), this, []).
Proof. intros V. unfold sendMessage. now rewrite V. Qed.

Lemma run_unconfigured (cfg : OpenAIConfig) (call : Call)
  (this : OpenAIService) :
  validateOpenAIConfig cfg = false ->
  (conversationHistory (fst (run cfg call this)) = conversationHistory this
   \/ conversationHistory (fst (run cfg call this)) = [systemMessage])
  /\ forall body, ~ In (PostCompletion body) (snd (run cfg call this)).
Proof.
  intros V. destruct call as [userMessage include now catalog reply
                             | searchQuery found reply | | catalog now];
    cbn [run].
  - rewrite sendMessage_unconfigured by exact V. cbn [fst snd].
    split; [now left | intros body []].
  - unfold searchProductsAndRespond. destruct found as [products|reason].
    + rewrite sendMessage_unconfigured by exact V. cbn [fst snd].
      split; [now left | OpenAIFacts.no_post].
    + cbn [fst snd]. split; [now left | OpenAIFacts.no_post].
  - cbn [fst snd]. split; [now right | intros body []].
  - destruct catalog; cbn [refreshProductCache fst snd conversationHistory];
      (split; [now left | OpenAIFacts.no_post]).
Qed.

(** X12. Without an API key nothing reaches the completion API: every
    [sendMessage] rejects with the configuration error before it fetches the
    catalog or touches the history, no call of any method posts a completion
    request, and in every reachable state the history is the system
    instruction alone. *)
Theorem no_api_key_no_request :
  forall (cfg : OpenAIConfig) (this : OpenAIService),
    validateOpenAIConfig cfg = false ->
    reachable cfg this ->
    this.(conversationHistory) = [systemMessage]
    /\ (forall call body, ~ In (PostCompletion body) (snd (run cfg call this)))
    /\ (forall userMessage includeProductContext now catalog reply,
          sendMessage cfg userMessage includeProductContext now catalog reply
            this
          = (JS.Rejected
               (JS.ErrorObject "Error"
                  "OpenAI API key is not configured. Please set VITE_OPENAI_API_KEY in your environment variables."),
             this, [])).
Proof.
  intros cfg this V R. split; [|split].
  - induction R as [|this call _ IH]; [reflexivity|].
    destruct (run_unconfigured cfg call this V) as [[H|H] _];
      [now rewrite H | exact H].
  - intros call. now apply run_unconfigured.
  - intros. now apply sendMessage_unconfigured.
Qed.

Lemma no_api_key_no_request_witness :
  let cfg := openAIConfig EmptyString in
  let this :=
    fst (run cfg
           (CallSearchProductsAndRespond "lamp"
              (JS.Fulfilled [Scenario.deskLamp]) Scenario.sampleReply)
           newOpenAIService) in
  this.(conversationHistory) = [systemMessage]
  /\ (forall call body, ~ In (PostCompletion body) (snd (run cfg call this)))
  /\ (forall userMessage includeProductContext now catalog reply,
        sendMessage cfg userMessage includeProductContext now catalog reply
          this
        = (JS.Rejected
             (JS.ErrorObject "Error"
                "OpenAI API key is not configured. Please set VITE_OPENAI_API_KEY in your environment variables."),
           this, [])).
Proof.
  intros cfg this.
  apply (no_api_key_no_request cfg this); [reflexivity|].
  apply reachable_run, reachable_new.
Defined.

(** *** The product cache *)

(** X13. A catalog that was fetched is reused: after [getProductContext]
    has fetched a catalog that is not empty, a call no more than five
    minutes later sends nothing, leaves the object alone and gives the same
    text. *)
Theorem fresh_cache_is_reused :
  forall (now now' : Z) (fetched : list WooCommerceProduct)
         (this : OpenAIService),
    (this.(productCache) = []
     \/ (now - this.(productCacheTime) > 300000)%Z) ->
    fetched <> [] ->
    (now' - now <= 300000)%Z ->
    let first := getProductContext now (JS.Fulfilled fetched) this in
    let this' := snd (fst first) in
    snd first = [GetProducts 50 None]
    /\ forall catalog',
         getProductContext now' catalog' this' = (fst (fst first), this', []).
Proof.
  intros now now' fetched this S N L first this'.
  assert (D : (List.length this.(productCache) =? 0)%nat
              || (now - this.(productCacheTime) >? CACHE_DURATION)%Z = true).
  { apply orb_true_iff. destruct S as [S|S].
    - left. now rewrite S.
    - right. unfold CACHE_DURATION. apply Z.gtb_lt. simpl. lia. }
  subst this' first. unfold getProductContext. rewrite D. cbn [fst snd].
  split; [reflexivity|]. intros catalog'.
  cbn [productCache productCacheTime].
  assert (D' : (List.length fetched =? 0)%nat
               || (now' - now >? CACHE_DURATION)%Z = false).
  { apply orb_false_iff. split.
    - destruct fetched; [contradiction | reflexivity].
    - unfold CACHE_DURATION. rewrite Z.gtb_ltb. apply Z.ltb_ge. simpl. lia. }
  now rewrite D'.
Qed.

Lemma fresh_cache_is_reused_witness :
  let first :=
    getProductContext 0 (JS.Fulfilled [Scenario.deskLamp]) newOpenAIService in
  let this' := snd (fst first) in
  snd first = [GetProducts 50 None]
  /\ forall catalog',
       getProductContext 300000 catalog' this' = (fst (fst first), this', []).
Proof.
  apply (fresh_cache_is_reused 0 300000 [Scenario.deskLamp] newOpenAIService).
  - now left.
  - discriminate.
  - reflexivity.
Defined.

(** X14. An empty catalog is never taken for a filled cache: after a fetch
    that returned no product the text is that no products were found, and
    the next call fetches again however soon it comes. *)
Theorem empty_catalog_is_fetched_again :
  forall (now now' : Z) (this : OpenAIService)
         (catalog' : JS.Settled (list WooCommerceProduct)),
    (this.(productCache) = []
     \/ (now - this.(productCacheTime) > 300000)%Z) ->
    let first := getProductContext now (JS.Fulfilled []) this in
    fst (fst first) = "No products found."
    /\ snd (getProductContext now' catalog' (snd (fst first)))
       = [GetProducts 50 None].
Proof.
  intros now now' this catalog' S first.
  assert (D : (List.length this.(productCache) =? 0)%nat
              || (now - this.(productCacheTime) >? CACHE_DURATION)%Z = true).
  { apply orb_true_iff. destruct S as [S|S].
    - left. now rewrite S.
    - right. unfold CACHE_DURATION. apply Z.gtb_lt. simpl. lia. }
  subst first. unfold getProductContext. rewrite D. cbn [fst snd].
  split; [reflexivity|]. cbn [productCache List.length Nat.eqb orb].
  destruct catalog'; reflexivity.
Qed.

Lemma empty_catalog_is_fetched_again_witness :
  let first := getProductContext 5 (JS.Fulfilled []) newOpenAIService in
  fst (fst first) = "No products found."
  /\ snd (getProductContext 6 (JS.Fulfilled []) (snd (fst first)))
     = [GetProducts 50 None].
Proof.
  apply (empty_catalog_is_fetched_again 5 6 newOpenAIService (JS.Fulfilled [])).
  now left.
Defined.

(** *** Clearing and searching *)

(** X15. [clearConversation] forgets the turns and nothing else: the visible
    history is empty, the product cache and its time are kept, and the
    request of the next [sendMessage] holds the system instruction and the
    new user turn only. *)
Theorem clear_forgets_the_turns_only :
  forall (cfg : OpenAIConfig) (userMessage : string) (now : Z)
         (catalog : JS.Settled (list WooCommerceProduct))
         (reply : CompletionResponse) (this : OpenAIService),
    validateOpenAIConfig cfg = true ->
    let cleared := clearConversation this in
    getConversationHistory cleared = []
    /\ cleared.(productCache) = this.(productCache)
    /\ cleared.(productCacheTime) = this.(productCacheTime)
    /\ (forall now' catalog',
          fst (fst (getProductContext now' catalog' cleared))
          = fst (fst (getProductContext now' catalog' this)))
    /\ (forall body,
          In (PostCompletion body)
             (snd (sendMessage cfg userMessage false now catalog reply cleared)) ->
          body.(req_messages)
          = [systemMessage; {| role := user; content := userMessage |}]).
Proof.
  intros cfg userMessage now catalog reply this V cleared.
  split; [reflexivity|]. split; [reflexivity|]. split; [reflexivity|].
  split.
  - intros now' catalog'. unfold getProductContext, cleared.
    cbn [clearConversation initializeConversation productCache productCacheTime].
    destruct (_ || _); [destruct catalog'|]; reflexivity.
  - intros body I. unfold sendMessage in I. rewrite V in I. cbn [negb] in I.
    destruct reply; cbn [snd app] in I; destruct I as [I|[]];
      now injection I as <-.
Qed.

Lemma clear_forgets_the_turns_only_witness :
  let cleared := clearConversation Scenario.afterOneTurn in
  getConversationHistory cleared = []
  /\ cleared.(productCache) = Scenario.afterOneTurn.(productCache)
  /\ cleared.(productCacheTime) = Scenario.afterOneTurn.(productCacheTime)
  /\ (forall now' catalog',
        fst (fst (getProductContext now' catalog' cleared))
        = fst (fst (getProductContext now' catalog' Scenario.afterOneTurn)))
  /\ (forall body,
        In (PostCompletion body)
           (snd (sendMessage Scenario.cfg "Any lamps?" false 0
                   (JS.Rejected JS.OtherValue) Scenario.sampleReply cleared)) ->
        body.(req_messages)
        = [systemMessage; {| role := user; content := "Any lamps?" |}]).
Proof.
  apply (clear_forgets_the_turns_only Scenario.cfg "Any lamps?" 0
           (JS.Rejected JS.OtherValue) Scenario.sampleReply
           Scenario.afterOneTurn).
  reflexivity.
Defined.

(** X16. [searchProductsAndRespond] goes past the product cache: it asks the
    store for at most 10 products matching the query, never for the catalog
    of 50, and leaves the cache and its time as they are. When the search
    fails the call rejects with the same error, posts nothing and leaves the
    history alone; when it finds nothing, the user turn of the request says
    so and names the query. *)
Theorem search_goes_past_the_cache :
  forall (cfg : OpenAIConfig) (searchQuery : string)
         (found : JS.Settled (list WooCommerceProduct))
         (reply : CompletionResponse) (this : OpenAIService),
    let out := searchProductsAndRespond cfg searchQuery found reply this in
    (snd (fst out)).(productCache) = this.(productCache)
    /\ (snd (fst out)).(productCacheTime) = this.(productCacheTime)
    /\ hd_error (snd out) = Some (GetProducts 10 (Some searchQuery))
    /\ ~ In (GetProducts 50 None) (snd out)
    /\ (forall reason, found = JS.Rejected reason ->
          out = (JS.Rejected reason, this, [GetProducts 10 (Some searchQuery)]))
    /\ (found = JS.Fulfilled [] ->
        forall body, In (PostCompletion body) (snd out) ->
          body.(req_messages)
          = (this.(conversationHistory)
             ++ [{| role := user;
                    content :=
                      "I searched for " ++ DQ ++ searchQuery ++ DQ
                        ++ " but couldn't find any matching products. Can you help me find what I'm looking for?" |}])%list).
Proof.
  intros cfg searchQuery found reply this out. unfold out.
  unfold searchProductsAndRespond.
  destruct found as [products|reason].
  - set (message := if (List.length products =? 0)%nat then _ else _).
    assert (S : forall m,
      let o := sendMessage cfg m false 0 (JS.Rejected JS.OtherValue) reply this in
      productCache (snd (fst o)) = productCache this
      /\ productCacheTime (snd (fst o)) = productCacheTime this
      /\ ~ In (GetProducts 50 None) (snd o)
      /\ forall body, In (PostCompletion body) (snd o) ->
           req_messages body
           = (conversationHistory this ++ [{| role := user; content := m |}])%list).
    { intros m. unfold sendMessage.
      destruct (negb (validateOpenAIConfig cfg)).
      - cbn [fst snd]. split; [reflexivity|]. split; [reflexivity|].
        split; [intros [] | intros body []].
      - destruct reply; cbn [fst snd push productCache productCacheTime app];
          (split; [reflexivity|]); (split; [reflexivity|]);
          (split; [intros [I|[]]; discriminate I
                  | intros posted [I|[]]; now injection I as <-]). }
    specialize (S message). cbv zeta in S. destruct S as [S1 [S2 [S3 S4]]].
    destruct (sendMessage cfg message false 0 (JS.Rejected JS.OtherValue) reply this)
      as [[result this'] events].
    cbn [fst snd] in *.
    split; [exact S1|]. split; [exact S2|]. split; [reflexivity|].
    split; [intros [I|I]; [discriminate I | now apply S3]|].
    split; [intros reason E; discriminate E|].
    intros E body [I|I]; [discriminate I|].
    injection E as ->. now apply S4.
  - cbn [fst snd]. repeat split; trivial.
    + intros [I|[]]. discriminate I.
    + intros reason' E. now injection E as ->.
    + intros E. discriminate E.
Qed.

Lemma search_goes_past_the_cache_witness :
  req_messages
    {| req_model := "gpt-4o-mini";
       req_messages :=
         [systemMessage;
          {| role := user;
             content :=
               "I searched for " ++ DQ ++ "lamp" ++ DQ
                 ++ " but couldn't find any matching products. Can you help me find what I'm looking for?" |}];
       req_max_tokens := 1000;
       req_temperature := (7, 10)%Z |}
  = (Scenario.staleService.(conversationHistory)
     ++ [{| role := user;
            content :=
              "I searched for " ++ DQ ++ "lamp" ++ DQ
                ++ " but couldn't find any matching products. Can you help me find what I'm looking for?" |}])%list.
Proof.
  apply (search_goes_past_the_cache Scenario.cfg "lamp" (JS.Fulfilled [])
           Scenario.sampleReply Scenario.staleService).
  - reflexivity.
  - right. left. reflexivity.
Defined.

Lemma sendMessage_appends (cfg : OpenAIConfig) (userMessage : string)
  (includeProductContext : bool) (now : Z)
  (catalog : JS.Settled (list WooCommerceProduct))
  (reply : CompletionResponse) (this : OpenAIService) :
  exists added,
    conversationHistory
      (snd (fst (sendMessage cfg userMessage includeProductContext now catalog
                   reply this)))
    = (conversationHistory this ++ added)%list
    /\ (List.length added <= 2)%nat.
Proof.
  unfold sendMessage. destruct (negb (validateOpenAIConfig cfg)).
  { exists []. cbn [fst snd]. split; [now rewrite app_nil_r | simpl; lia]. }
  destruct includeProductContext.
  - unfold enhanceMessageWithContext.
    pose proof (getProductContext_keeps_history now catalog this) as H.
    destruct (getProductContext now catalog this) as [[text this1] events1].
    cbn [fst snd] in H.
    destruct reply; cbn [fst snd push conversationHistory]; rewrite H;
      rewrite <- ?app_assoc; eexists; (split; [reflexivity | simpl; lia]).
  - destruct reply; cbn [fst snd push conversationHistory];
      rewrite <- ?app_assoc; eexists; (split; [reflexivity | simpl; lia]).
Qed.

(** X17. Between two [clearConversation] calls the history only grows: every
    other call leaves the history it found in place and adds at most two
    messages at its end. *)
Theorem history_only_grows :
  forall (cfg : OpenAIConfig) (call : Call) (this : OpenAIService),
    call <> CallClearConversation ->
    exists added,
      (fst (run cfg call this)).(conversationHistory)
      = (this.(conversationHistory) ++ added)%list
      /\ (List.length added <= 2)%nat.
Proof.
  intros cfg call this N.
  destruct call as [userMessage include now catalog reply
                   | searchQuery found reply | | catalog now];
    cbn [run].
  - pose proof (sendMessage_appends cfg userMessage include now catalog reply this)
      as H.
    destruct (sendMessage cfg userMessage include now catalog reply this)
      as [[result this'] events]. exact H.
  - unfold searchProductsAndRespond. destruct found as [products|reason].
    + match goal with
      | |- context [sendMessage cfg ?m false ?n ?c reply this] =>
          pose proof (sendMessage_appends cfg m false n c reply this) as H;
          destruct (sendMessage cfg m false n c reply this)
            as [[result this'] events]
      end.
      exact H.
    + exists []. cbn [fst]. split; [now rewrite app_nil_r | simpl; lia].
  - contradiction.
  - exists []. destruct catalog; cbn [refreshProductCache fst conversationHistory];
      (split; [now rewrite app_nil_r | simpl; lia]).
Qed.

Lemma history_only_grows_witness :
  exists added,
    (fst (run Scenario.cfg
            (CallSendMessage "Any lamps?" true 361000
               (JS.Rejected JS.OtherValue) (NotOk 500 BodyUnreadable))
            Scenario.afterOneTurn)).(conversationHistory)
    = (Scenario.afterOneTurn.(conversationHistory) ++ added)%list
    /\ (List.length added <= 2)%nat.
Proof.
  apply (history_only_grows Scenario.cfg
           (CallSendMessage "Any lamps?" true 361000
              (JS.Rejected JS.OtherValue) (NotOk 500 BodyUnreadable))
           Scenario.afterOneTurn).
  discriminate.
Defined.

End ServiceFacts.

(** ** More about the conversation manager *)

Module ChatFacts.
Import WooCommerce UseChat.

(** X18. When the request of an accepted [sendMessage] is answered, the
    transcript gains the user turn and the assistant turn with the answer,
    in this order; the error state is unset, the loading flag is cleared and
    the cancellation handle is dropped. *)
Theorem answer_is_appended :
  forall (products : list WooCommerceProduct) (content response : string)
         (clock clock' : Clock) (st : State),
    st.(isLoading) = false ->
    JS.whitespaceOnly content = false ->
    exists st' request,
      sendMessage products content clock (JS.Fulfilled response) clock' st
      = (st', [request])
      /\ request.(req_content) = JS.trim content
      /\ request.(req_products) = products
      /\ st'.(messages)
         = (st.(messages)
            ++ [{| id := "user-" ++ JS.numToString clock.(dateNow);
                   role := user;
                   content := JS.trim content;
                   timestamp := clock.(newDate) |};
                {| id := "assistant-" ++ JS.numToString clock'.(dateNow);
                   role := assistant;
                   content := response;
                   timestamp := clock'.(newDate) |}])%list
      /\ st'.(error) = None
      /\ st'.(isLoading) = false
      /\ st'.(abortControllerRef) = None
      /\ st'.(lastUserMessageRef) = JS.trim content.
Proof.
  intros products content response clock clock' st L W.
  unfold sendMessage.
  rewrite (UseChatFacts.sendMessage_begin_accepted products content clock st L W).
  eexists; eexists. split; [reflexivity|].
  cbn [sendMessage_settle messages error isLoading abortControllerRef
       lastUserMessageRef req_content req_products].
  repeat split. now rewrite <- app_assoc.
Qed.

Lemma answer_is_appended_witness :
  exists st' request,
    sendMessage Scenario.catalog "  Any mouse?  " Scenario.noon
      (JS.Fulfilled "Yes, one.") Scenario.afterNoon initial
    = (st', [request])
    /\ request.(req_content) = "Any mouse?"
    /\ request.(req_products) = Scenario.catalog
    /\ st'.(messages)
       = [{| id := "user-1765133457841";
             role := user;
             content := "Any mouse?";
             timestamp := 1765133457841 |};
          {| id := "assistant-1765133458900";
             role := assistant;
             content := "Yes, one.";
             timestamp := 1765133458901 |}]
    /\ st'.(error) = None
    /\ st'.(isLoading) = false
    /\ st'.(abortControllerRef) = None
    /\ st'.(lastUserMessageRef) = "Any mouse?".
Proof.
  apply (answer_is_appended Scenario.catalog "  Any mouse?  " "Yes, one."
           Scenario.noon Scenario.afterNoon initial); reflexivity.
Defined.

(** *** One request at a time *)

Lemma sendMessage_begin_tracked (products : list WooCommerceProduct)
  (content : string) (clock : Clock) (st st' : State) (request : Request) :
  sendMessage_begin products content clock st = Some (st', request) ->
  tracked st' [request].
Proof.
  unfold sendMessage_begin. destruct (_ || _); [discriminate|].
  intros E. injection E as <- <-. simpl. split; [reflexivity | now left].
Qed.

Lemma retryLastMessage_begin_tracked (products : list WooCommerceProduct)
  (clock : Clock) (st st' : State) (request : Request) :
  retryLastMessage_begin products clock st = Some (st', request) ->
  tracked st' [request].
Proof.
  unfold retryLastMessage_begin. destruct (_ && _); [|discriminate].
  apply sendMessage_begin_tracked.
Qed.

(** As long as no call has got past its guard on an old flag, the hook
    knows the requests it awaits. *)
Lemma live_tracked (products : list WooCommerceProduct) (stale : bool)
  (st : State) (pending : list Request) :
  live products stale st pending -> stale = false -> tracked st pending.
Proof.
  induction 1 as [ | stale st pending content clock st' request _ IH E
                   | stale st pending clock st' request _ IH E
                   | stale st before request after outcome clock _ IH
                   | stale st pending _ IH ]; intros S.
  - split; reflexivity.
  - apply orb_false_iff in S. destruct S as [S L].
    specialize (IH S). destruct pending as [|r [|r' pending]];
      [|destruct IH as [IH _]; congruence | destruct IH].
    now apply sendMessage_begin_tracked in E.
  - apply orb_false_iff in S. destruct S as [S L].
    specialize (IH S). destruct pending as [|r [|r' pending]];
      [|destruct IH as [IH _]; congruence | destruct IH].
    now apply retryLastMessage_begin_tracked in E.
  - specialize (IH S).
    destruct before as [|b before]; cbn [app] in IH |- *.
    + destruct after as [|a after]; [|destruct IH].
      destruct (UseChatFacts.sendMessage_settle_keeps outcome clock st)
        as [_ [_ [_ [L R]]]].
      split; [exact L | exact R].
    + destruct (before ++ request :: after)%list eqn:X; [|destruct IH].
      destruct before; discriminate X.
  - specialize (IH S). destruct pending as [|r [|r' pending]];
      [|destruct IH as [L [H|H]]; (split; [exact L | right]) | destruct IH].
    + split; [apply IH | reflexivity].
    + now apply UseChatFacts.clearMessages_aborts_held.
    + now apply UseChatFacts.clearMessages_keeps_aborted.
Qed.

(** X19. As long as every [sendMessage] and [retryLastMessage] call reads
    the loading flag as it is (the calls go through the callbacks of the
    latest render, none gets past its guard on an older flag), at most one
    completion request is under way: the loading flag is set exactly while
    a request is awaited, the cancellation handle is empty whenever none is,
    a call made while one is awaited starts nothing, and [clearMessages]
    aborts the signal of the request under way. (A call through an older
    callback breaks this: see C7.) *)
Theorem one_request_at_a_time :
  forall (products : list WooCommerceProduct) (st : State)
         (pending : list Request),
    live products false st pending ->
    (List.length pending <= 1)%nat
    /\ (st.(isLoading) = true <-> pending <> [])
    /\ (pending = [] -> st.(abortControllerRef) = None)
    /\ (pending <> [] ->
        (forall content clock,
           sendMessage_begin products content clock st = None)
        /\ (forall clock, retryLastMessage_begin products clock st = None))
    /\ (forall request, In request pending ->
          aborted request.(req_signal) (clearMessages st) = true).
Proof.
  intros products st pending R.
  pose proof (live_tracked products false st pending R eq_refl) as T.
  destruct pending as [|request [|r' pending]]; [| |destruct T].
  - destruct T as [L A]. split; [simpl; lia|].
    split; [split; [congruence | intros N; now elim N]|].
    split; [intros _; exact A|]. split; [intros N; now elim N|].
    intros request [].
  - destruct T as [L H]. split; [simpl; lia|].
    split; [split; [discriminate | intros _; exact L]|].
    split; [discriminate|]. split.
    + intros _. split.
      * intros content clock. unfold sendMessage_begin.
        now rewrite L, orb_true_r.
      * intros clock. unfold retryLastMessage_begin.
        now rewrite L, andb_false_r.
    + intros r [<-|[]]. destruct H as [H|H].
      * now apply UseChatFacts.clearMessages_aborts_held.
      * now apply UseChatFacts.clearMessages_keeps_aborted.
Qed.

Lemma one_request_at_a_time_witness :
  (List.length [Samples.firstRequest] <= 1)%nat
  /\ (Scenario.inFlight.(isLoading) = true <-> [Samples.firstRequest] <> [])
  /\ ([Samples.firstRequest] = [] -> Scenario.inFlight.(abortControllerRef) = None)
  /\ ([Samples.firstRequest] <> [] ->
      (forall content clock,
         sendMessage_begin Scenario.catalog content clock Scenario.inFlight
         = None)
      /\ (forall clock,
            retryLastMessage_begin Scenario.catalog clock Scenario.inFlight
            = None))
  /\ (forall request, In request [Samples.firstRequest] ->
        aborted request.(req_signal) (clearMessages Scenario.inFlight) = true).
Proof.
  apply (one_request_at_a_time Scenario.catalog Scenario.inFlight
           [Samples.firstRequest]).
  exact (live_send Scenario.catalog false initial [] "  Any mouse?  "
           Scenario.noon Scenario.inFlight Samples.firstRequest
           (live_initial Scenario.catalog) eq_refl).
Defined.

(** X20. An error is never only in the side channel: in every reachable
    state of the hook, calls through older callbacks included, whenever the
    error state holds a text the last message of the transcript is the
    assistant turn that shows the same text. *)
Theorem error_is_shown_in_line :
  forall (products : list WooCommerceProduct) (st : State) (text : string),
    reachable products st ->
    st.(error) = Some text ->
    exists earlier shown,
      st.(messages) = (earlier ++ [shown])%list
      /\ shown.(role) = assistant
      /\ shown.(content)
         = "I apologize, but I encountered an error: " ++ text
             ++ ". Please try again.".
Proof.
  intros products st text R. revert text.
  induction R as [|st a _ IH]; intros text H; [discriminate H|].
  destruct (UseChatFacts.step_cases products a st)
    as [[content [clock [st0 [request [_ E]]]]]
       | [[outcome [clock E]] | [E | E]]].
  - unfold sendMessage_begin in E. destruct (_ || _); [discriminate|].
    injection E as E _. rewrite <- E in H. discriminate H.
  - rewrite E in H |- *. unfold sendMessage_settle in H |- *.
    destruct outcome as [response|err]; [discriminate H|].
    destruct (isAbortError err).
    + cbn [error messages] in H |- *. now apply IH.
    + cbn [error] in H. injection H as <-.
      cbn [messages]. eexists; eexists. split; [reflexivity|].
      split; reflexivity.
  - rewrite E in H. discriminate H.
  - rewrite E in H |- *. now apply IH.
Qed.

(** Two overlapping sends, the first of which fails while the second is
    still awaited. *)
Lemma error_is_shown_in_line_witness :
  exists earlier shown,
    (step Scenario.catalog
       (Settle (JS.Rejected Scenario.unauthorized) Scenario.afterNoon)
       Samples.twoSends).(messages)
    = (earlier ++ [shown])%list
    /\ shown.(role) = assistant
    /\ shown.(content)
       = "I apologize, but I encountered an error: invalid api key. Please try again.".
Proof.
  apply (error_is_shown_in_line Scenario.catalog
           (step Scenario.catalog
              (Settle (JS.Rejected Scenario.unauthorized) Scenario.afterNoon)
              Samples.twoSends)
           "invalid api key").
  - unfold Samples.twoSends, Scenario.inFlight.
    apply reachable_step, reachable_step, reachable_step, reachable_initial.
  - reflexivity.
Defined.

(** *** Fresh controllers *)







(** *** Retry and clear *)

Lemma whitespaceOnly_trim (s : string) :
  JS.whitespaceOnly s = false -> JS.whitespaceOnly (JS.trim s) = false.
Proof.
  intros W. destruct (JS.whitespaceOnly (JS.trim s)) eqn:E; [|reflexivity].
  apply JSFacts.trim_empty_iff in E. rewrite JSFacts.trim_idem in E.
  apply JSFacts.trim_empty_iff in E. congruence.
Qed.

(** X22. Retrying a finished turn asks the question a second time: after a
    [sendMessage] that was answered, or failed otherwise than by an abort,
    [retryLastMessage] removes the assistant turn and submits the same text,
    so the transcript then ends with the user turn twice and a request for
    the text is under way. *)
Theorem retry_asks_again :
  forall (products : list WooCommerceProduct) (content : string)
         (clock clock' clock'' : Clock) (outcome : JS.Settled string)
         (st : State),
    st.(isLoading) = false ->
    JS.whitespaceOnly content = false ->
    (forall message,
       outcome <> JS.Rejected (JS.ErrorObject "AbortError" message)) ->
    let finished :=
      fst (sendMessage products content clock outcome clock' st) in
    exists st' request,
      retryLastMessage_begin products clock'' finished = Some (st', request)
      /\ request.(req_content) = JS.trim content
      /\ st'.(isLoading) = true
      /\ st'.(error) = None
      /\ st'.(messages)
         = (st.(messages)
            ++ [{| id := "user-" ++ JS.numToString clock.(dateNow);
                   role := user;
                   content := JS.trim content;
                   timestamp := clock.(newDate) |};
                {| id := "user-" ++ JS.numToString clock''.(dateNow);
                   role := user;
                   content := JS.trim content;
                   timestamp := clock''.(newDate) |}])%list.
Proof.
  intros products content clock clock' clock'' outcome st L W NA finished.
  pose proof (whitespaceOnly_trim content W) as W'.
  assert (T : JS.truthy (JS.trim content) = true)
    by (rewrite JSFacts.truthy_trim, W; reflexivity).
  set (question := {| id := "user-" ++ JS.numToString clock.(dateNow);
                      role := user;
                      content := JS.trim content;
                      timestamp := clock.(newDate) |}).
  assert (F : exists reply,
    reply.(role) = assistant
    /\ finished.(messages) = ((st.(messages) ++ [question]) ++ [reply])%list
    /\ finished.(isLoading) = false
    /\ finished.(lastUserMessageRef) = JS.trim content).
  { unfold finished, sendMessage.
    rewrite (UseChatFacts.sendMessage_begin_accepted products content clock st L W).
    cbn [fst]. unfold sendMessage_settle.
    destruct outcome as [response|err].
    - eexists. cbn [messages isLoading lastUserMessageRef].
      split; [|split; [reflexivity | split; reflexivity]]. reflexivity.
    - assert (A : isAbortError err = false).
      { destruct err as [name message|]; [|reflexivity]. simpl.
        apply String.eqb_neq. intros ->. now apply (NA message). }
      rewrite A. eexists. cbn [messages isLoading lastUserMessageRef].
      split; [|split; [reflexivity | split; reflexivity]]. reflexivity. }
  destruct F as [reply [Hr [Hm [Hl Hu]]]].
  unfold retryLastMessage_begin. rewrite Hu, Hl, T. cbn [negb andb].
  rewrite (UseChatFacts.sendMessage_begin_accepted products (JS.trim content)
             clock'' (setMessages dropLastAssistant finished) Hl W').
  eexists; eexists. split; [reflexivity|].
  cbn [req_content isLoading error messages setMessages].
  rewrite JSFacts.trim_idem, Hm, UseChatFacts.dropLastAssistant_snoc, Hr.
  repeat split. now rewrite <- app_assoc.
Qed.

Lemma retry_asks_again_witness :
  exists st' request,
    retryLastMessage_begin Scenario.catalog Scenario.afterNoon
      (fst (sendMessage Scenario.catalog "  Any mouse?  " Scenario.noon
              (JS.Fulfilled "Yes, one.") Scenario.afterNoon initial))
    = Some (st', request)
    /\ request.(req_content) = "Any mouse?"
    /\ st'.(isLoading) = true
    /\ st'.(error) = None
    /\ st'.(messages)
       = [{| id := "user-1765133457841";
             role := user;
             content := "Any mouse?";
             timestamp := 1765133457841 |};
          {| id := "user-1765133458900";
             role := user;
             content := "Any mouse?";
             timestamp := 1765133458901 |}].
Proof.
  apply (retry_asks_again Scenario.catalog "  Any mouse?  " Scenario.noon
           Scenario.afterNoon Scenario.afterNoon (JS.Fulfilled "Yes, one.")
           initial).
  - reflexivity.
  - reflexivity.
  - intros message. discriminate.
Defined.



(** *** The remembered text *)

Lemma userTexts_snoc (messages : list Message) (m : Message) :
  Transcript.userTexts (messages ++ [m])
  = match m.(role) with
    | user => (Transcript.userTexts messages ++ [m.(content)])%list
    | assistant => Transcript.userTexts messages
    end.
Proof.
  unfold Transcript.userTexts. rewrite filter_app, map_app.
  cbn [filter]. unfold Transcript.isUser at 2.
  destruct (role m); cbn [map]; [reflexivity | apply app_nil_r].
Qed.

Lemma userTexts_dropLastAssistant (messages : list Message) :
  Transcript.userTexts (dropLastAssistant messages)
  = Transcript.userTexts messages.
Proof.
  destruct messages as [|m0 rest] using rev_ind; [reflexivity|].
  rewrite UseChatFacts.dropLastAssistant_snoc.
  destruct (role m0) eqn:E; [reflexivity|].
  now rewrite userTexts_snoc, E.
Qed.

(** X24. The text that [retryLastMessage] submits is the latest question of
    the transcript: in every reachable state the remembered text is the
    content of the last user turn, and it is empty exactly when the
    transcript has no user turn. *)
Theorem remembered_text_is_last_question :
  forall (products : list WooCommerceProduct) (st : State),
    reachable products st ->
    st.(lastUserMessageRef)
    = last (Transcript.userTexts st.(messages)) EmptyString
    /\ (st.(lastUserMessageRef) = EmptyString
        <-> Transcript.userTexts st.(messages) = []).
Proof.
  intros products st R.
  assert (I : match Transcript.userTexts st.(messages) with
              | [] => st.(lastUserMessageRef) = EmptyString
              | _ :: _ =>
                  st.(lastUserMessageRef)
                  = last (Transcript.userTexts st.(messages)) EmptyString
                  /\ st.(lastUserMessageRef) <> EmptyString
              end).
  { assert (B : forall content clock st0 st1 request,
      sendMessage_begin products content clock st0 = Some (st1, request) ->
      exists texts,
        Transcript.userTexts st1.(messages)
        = (texts ++ [st1.(lastUserMessageRef)])%list
        /\ st1.(lastUserMessageRef) <> EmptyString).
    { intros content clock st0 st1 request. unfold sendMessage_begin.
      destruct (negb (JS.truthy (JS.trim content))) eqn:T; [discriminate|].
      destruct (isLoading st0); [discriminate|].
      intros E. injection E as <- _. cbn [messages lastUserMessageRef].
      rewrite userTexts_snoc. cbn [UseChat.role UseChat.content].
      eexists. split; [reflexivity|].
      apply negb_false_iff in T. now apply JSFacts.truthy_iff. }
    assert (C : forall st1 texts,
      Transcript.userTexts st1.(messages)
      = (texts ++ [st1.(lastUserMessageRef)])%list ->
      st1.(lastUserMessageRef) <> EmptyString ->
      match Transcript.userTexts st1.(messages) with
      | [] => st1.(lastUserMessageRef) = EmptyString
      | _ :: _ =>
          st1.(lastUserMessageRef)
          = last (Transcript.userTexts st1.(messages)) EmptyString
          /\ st1.(lastUserMessageRef) <> EmptyString
      end).
    { intros st1 texts E N. rewrite E.
      destruct (texts ++ [lastUserMessageRef st1])%list eqn:X.
      - destruct texts; discriminate X.
      - rewrite <- X. split; [now rewrite last_last | exact N]. }
    induction R as [|st a _ IH]; [reflexivity|].
    destruct (UseChatFacts.step_cases products a st)
      as [[content [clock [st0 [request [_ E]]]]]
         | [[outcome [clock E]] | [E | E]]].
    - destruct (B _ _ _ _ _ E) as [texts [E1 N1]]. exact (C _ texts E1 N1).
    - rewrite E.
      replace (Transcript.userTexts (messages (sendMessage_settle outcome clock st)))
        with (Transcript.userTexts (messages st)).
      + replace (lastUserMessageRef (sendMessage_settle outcome clock st))
          with (lastUserMessageRef st); [exact IH|].
        unfold sendMessage_settle.
        destruct outcome as [response|err]; [|destruct (isAbortError err)];
          reflexivity.
      + unfold sendMessage_settle.
        destruct outcome as [response|err]; [|destruct (isAbortError err)];
          cbn [messages]; rewrite ?userTexts_snoc; reflexivity.
    - rewrite E. reflexivity.
    - rewrite E. exact IH. }
  destruct (Transcript.userTexts (messages st)) as [|t texts] eqn:U.
  - split; [exact I|]. split; [reflexivity | intros _; exact I].
  - destruct I as [I N]. split; [exact I|].
    split; [intros E; contradiction | discriminate].
Qed.

Lemma remembered_text_is_last_question_witness :
  Scenario.failedTurn.(lastUserMessageRef)
  = last (Transcript.userTexts Scenario.failedTurn.(messages)) EmptyString
  /\ (Scenario.failedTurn.(lastUserMessageRef) = EmptyString
      <-> Transcript.userTexts Scenario.failedTurn.(messages) = []).
Proof.
  apply (remembered_text_is_last_question Scenario.catalog Scenario.failedTurn).
  unfold Scenario.failedTurn, Scenario.inFlight.
  apply reachable_step, reachable_step, reachable_initial.
Defined.

End ChatFacts.

(** ** The App component's send handler *)

Module AppChatFacts.
Import WooCommerce AppChat.

Lemma isConfigured_guards (st : State) :
  isConfigured st = true ->
  negb (JS.truthy st.(settings).(openaiApiKey)) = false
  /\ negb (JS.truthy st.(settings).(woocommerceUrl))
     || negb (JS.truthy st.(settings).(woocommerceConsumerKey)) = false.
Proof.
  unfold isConfigured. intros H.
  apply andb_true_iff in H. destruct H as [H H3].
  apply andb_true_iff in H. destruct H as [H1 H2].
  now rewrite H1, H2, H3.
Qed.

Lemma prompt_is_truthy (context : string) :
  JS.truthy (App.systemPromptPreamble ++ context) = true.
Proof. reflexivity. Qed.

(** X25. Without an OpenAI key, a store URL or a consumer key,
    [handleSendMessage] sends nothing: the completion service is not called,
    no catalog request is made, the user's text is not added to the
    transcript; one assistant message asking to configure is added and the
    settings panel is opened. *)
Theorem unconfigured_send_is_refused :
  forall (cfg : OpenAI.OpenAIConfig) (userMessage : string) (clocks : Clocks)
         (loaded : JS.Settled (list WooCommerceProduct)) (world : World)
         (st : State) (service : OpenAI.OpenAIService),
    isConfigured st = false ->
    let out := handleSendMessage cfg userMessage clocks loaded world st service in
    snd (fst out) = service
    /\ snd out = []
    /\ (fst (fst out)).(isSettingsOpen) = true
    /\ (fst (fst out)).(isLoading) = st.(isLoading)
    /\ (fst (fst out)).(catalog) = st.(catalog)
    /\ (fst (fst out)).(messages)
       = (st.(messages)
          ++ [{| id := JS.numToString clocks.(atUser).(UseChat.dateNow);
                 role := assistant;
                 content :=
                   if JS.truthy st.(settings).(openaiApiKey)
                   then "Please configure your WooCommerce connection in settings to access product information."
                   else "Please configure your OpenAI API key in settings to use the chatbot.";
                 timestamp := clocks.(atUser).(UseChat.newDate);
                 products := None |}])%list.
Proof.
  intros cfg userMessage clocks loaded world st service H out.
  unfold out, handleSendMessage.
  destruct (JS.truthy st.(settings).(openaiApiKey)) eqn:K; cbn [negb].
  - assert (G : negb (JS.truthy st.(settings).(woocommerceUrl))
                || negb (JS.truthy st.(settings).(woocommerceConsumerKey))
                = true).
    { unfold isConfigured in H. rewrite K in H. cbn [andb] in H.
      apply andb_false_iff in H. destruct H as [-> | ->];
        [reflexivity | apply orb_true_r]. }
    rewrite G. repeat split.
  - repeat split.
Qed.

Lemma unconfigured_send_is_refused_witness :
  let out :=
    handleSendMessage Scenario.cfg "Any mouse?" Samples.clocks
      (JS.Fulfilled Scenario.catalog) Samples.world
      (Samples.app Samples.noSettings []) OpenAI.newOpenAIService in
  snd (fst out) = OpenAI.newOpenAIService
  /\ snd out = []
  /\ (fst (fst out)).(isSettingsOpen) = true
  /\ (fst (fst out)).(isLoading) = false
  /\ (fst (fst out)).(catalog) = []
  /\ (fst (fst out)).(messages)
     = [{| id := "1765133457841";
           role := assistant;
           content := "Please configure your OpenAI API key in settings to use the chatbot.";
           timestamp := 1765133457841;
           products := None |}].
Proof.
  apply (unconfigured_send_is_refused Scenario.cfg "Any mouse?" Samples.clocks
           (JS.Fulfilled Scenario.catalog) Samples.world
           (Samples.app Samples.noSettings []) OpenAI.newOpenAIService).
  reflexivity.
Defined.

(** X26. The prompt that [handleSendMessage] assembles from the relevant
    products does not reach the completion API: it is passed where
    [sendMessage] expects its product-context flag, and being a non-empty
    string it only switches that flag on. What the service sends and keeps
    is what [sendMessage(userMessage, true)] sends and keeps, whatever the
    catalog of the component holds; the component itself adds one catalog
    request when its catalog is empty. *)
Theorem assembled_prompt_is_not_sent :
  forall (cfg : OpenAI.OpenAIConfig) (userMessage : string) (clocks : Clocks)
         (loaded : JS.Settled (list WooCommerceProduct)) (world : World)
         (st : State) (service : OpenAI.OpenAIService),
    isConfigured st = true ->
    let out := handleSendMessage cfg userMessage clocks loaded world st service in
    let served :=
      OpenAI.sendMessage cfg userMessage true world.(now) world.(fetched)
        world.(reply) service in
    snd (fst out) = snd (fst served)
    /\ snd out
       = ((if (List.length st.(catalog) =? 0)%nat then [GetProducts 20] else [])
          ++ map Service (snd served))%list.
Proof.
  intros cfg userMessage clocks loaded world st service H out served.
  destruct (isConfigured_guards st H) as [G1 G2].
  unfold out, handleSendMessage. rewrite G1, G2, prompt_is_truthy.
  fold served. destruct served as [[result service'] events2].
  destruct (List.length (catalog st) =? 0)%nat; split; reflexivity.
Qed.

Lemma assembled_prompt_is_not_sent_witness :
  let out :=
    handleSendMessage Scenario.cfg "wireless mouse" Samples.clocks
      (JS.Fulfilled []) Samples.world
      (Samples.app Samples.storeSettings Scenario.catalog)
      OpenAI.newOpenAIService in
  let served :=
    OpenAI.sendMessage Scenario.cfg "wireless mouse" true 1765133457900
      (JS.Fulfilled [Scenario.wirelessMouse]) Scenario.sampleReply
      OpenAI.newOpenAIService in
  snd (fst out) = snd (fst served)
  /\ snd out = map Service (snd served).
Proof.
  apply (assembled_prompt_is_not_sent Scenario.cfg "wireless mouse"
           Samples.clocks (JS.Fulfilled []) Samples.world
           (Samples.app Samples.storeSettings Scenario.catalog)
           OpenAI.newOpenAIService).
  reflexivity.
Defined.

(** X27. A configured [handleSendMessage] records the turn: the transcript
    gains the user's text as given and then one assistant message, which is
    the answer of the service, with the relevant products attached when
    there are any, or an apology with the message of the error; the loading
    flag ends cleared. Products attached are between one and five and come
    from the catalog of the render. *)
Theorem send_records_the_turn :
  forall (cfg : OpenAI.OpenAIConfig) (userMessage : string) (clocks : Clocks)
         (loaded : JS.Settled (list WooCommerceProduct)) (world : World)
         (st : State) (service : OpenAI.OpenAIService),
    isConfigured st = true ->
    st.(catalog) <> [] ->
    let out := handleSendMessage cfg userMessage clocks loaded world st service in
    let served :=
      OpenAI.sendMessage cfg userMessage true world.(now) world.(fetched)
        world.(reply) service in
    let relevant := App.findRelevantProducts st.(catalog) userMessage in
    let answer :=
      match fst (fst served) with
      | JS.Fulfilled response =>
          {| id := JS.numToString clocks.(atReply).(UseChat.dateNow);
             role := assistant;
             content := response;
             timestamp := clocks.(atReply).(UseChat.newDate);
             products := if (0 <? List.length relevant)%nat
                         then Some relevant else None |}
      | JS.Rejected error =>
          {| id := JS.numToString clocks.(atReply).(UseChat.dateNow);
             role := assistant;
             content :=
               "Sorry, I encountered an error: "
                 ++ match error with
                    | JS.ErrorObject _ message => message
                    | JS.OtherValue =>
                        "An error occurred while processing your message."
                    end
                 ++ ". Please check your API key and try again.";
             timestamp := clocks.(atReply).(UseChat.newDate);
             products := None |}
      end in
    (fst (fst out)).(messages)
    = (st.(messages)
       ++ [{| id := JS.numToString clocks.(atUser).(UseChat.dateNow);
              role := user;
              content := userMessage;
              timestamp := clocks.(atUser).(UseChat.newDate);
              products := None |};
           answer])%list
    /\ (fst (fst out)).(isLoading) = false
    /\ (fst (fst out)).(catalog) = st.(catalog)
    /\ (forall attached, answer.(products) = Some attached ->
          attached <> []
          /\ (List.length attached <= 5)%nat
          /\ forall p, In p attached -> In p st.(catalog)).
Proof.
  intros cfg userMessage clocks loaded world st service H N out served relevant
    answer.
  destruct (isConfigured_guards st H) as [G1 G2].
  assert (L : (List.length (catalog st) =? 0)%nat = false)
    by (destruct (catalog st); [contradiction | reflexivity]).
  split; [|split; [|split]].
  - unfold out, handleSendMessage. rewrite G1, G2, prompt_is_truthy, L.
    fold served. fold relevant. unfold answer.
    destruct served as [[result service'] events2]. cbn [fst snd].
    destruct result as [response|error];
      cbn [messages addMessage setMessages setIsLoading];
      now rewrite <- app_assoc.
  - unfold out, handleSendMessage. rewrite G1, G2, prompt_is_truthy, L.
    destruct (OpenAI.sendMessage _ _ _ _ _ _ _) as [[result service'] events2].
    reflexivity.
  - unfold out, handleSendMessage. rewrite G1, G2, prompt_is_truthy, L.
    destruct (OpenAI.sendMessage _ _ _ _ _ _ _) as [[result service'] events2].
    destruct result; reflexivity.
  - intros attached E. unfold answer in E.
    destruct (fst (fst served)) as [response|error]; [|discriminate E].
    cbn [products] in E.
    destruct (0 <? List.length relevant)%nat eqn:P; [|discriminate E].
    injection E as <-. split; [|split].
    + destruct relevant; [discriminate P | discriminate].
    + unfold relevant. rewrite AppFacts.findRelevantProducts_eq.
      apply firstn_le_length.
    + intros p I. now apply (ScorerFacts.In_findRelevantProducts _ _ _ I).
Qed.

Lemma send_records_the_turn_witness :
  let out :=
    handleSendMessage Scenario.cfg "wireless mouse" Samples.clocks
      (JS.Fulfilled []) Samples.world
      (Samples.app Samples.storeSettings Scenario.catalog)
      OpenAI.newOpenAIService in
  (fst (fst out)).(messages)
  = [{| id := "1765133457841";
        role := user;
        content := "wireless mouse";
        timestamp := 1765133457841;
        products := None |};
     {| id := "1765133458900";
        role := assistant;
        content := "We have a wireless mouse.";
        timestamp := 1765133458901;
        products := Some [Scenario.wirelessMouse; Scenario.usbCable] |}]
  /\ (fst (fst out)).(isLoading) = false.
Proof.
  destruct (send_records_the_turn Scenario.cfg "wireless mouse" Samples.clocks
              (JS.Fulfilled []) Samples.world
              (Samples.app Samples.storeSettings Scenario.catalog)
              OpenAI.newOpenAIService eq_refl)
    as [M [L _]].
  - discriminate.
  - split; [exact M | exact L].
Defined.

(** X28. The question that makes the component load its catalog is answered
    without product cards: the scorer runs on the catalog of the render,
    which is empty, so whatever [loadProducts] brings in is stored for later
    and the assistant message of this turn has no products attached. *)
Theorem first_question_gets_no_cards :
  forall (cfg : OpenAI.OpenAIConfig) (userMessage : string) (clocks : Clocks)
         (fetchedProducts : list WooCommerceProduct) (world : World)
         (st : State) (service : OpenAI.OpenAIService),
    isConfigured st = true ->
    st.(catalog) = [] ->
    let out :=
      handleSendMessage cfg userMessage clocks (JS.Fulfilled fetchedProducts)
        world st service in
    (fst (fst out)).(catalog) = fetchedProducts
    /\ hd_error (snd out) = Some (GetProducts 20)
    /\ exists question answer,
         (fst (fst out)).(messages)
         = (st.(messages) ++ [question; answer])%list
         /\ question.(role) = user
         /\ question.(content) = userMessage
         /\ answer.(role) = assistant
         /\ answer.(products) = None.
Proof.
  intros cfg userMessage clocks fetchedProducts world st service H E out.
  destruct (isConfigured_guards st H) as [G1 G2].
  unfold out, handleSendMessage. rewrite G1, G2, prompt_is_truthy, E.
  cbn [List.length Nat.eqb loadProducts].
  destruct (OpenAI.sendMessage _ _ _ _ _ _ _) as [[result service'] events2].
  cbn [fst snd]. split; [destruct result; reflexivity|].
  split; [reflexivity|].
  destruct result as [response|error];
    cbn [messages addMessage setMessages setIsLoading setProducts
         setIsLoadingProducts];
    eexists; eexists; (split; [now rewrite <- app_assoc|]); repeat split.
Qed.

Lemma first_question_gets_no_cards_witness :
  let out :=
    handleSendMessage Scenario.cfg "wireless mouse" Samples.clocks
      (JS.Fulfilled Scenario.catalog) Samples.world
      (Samples.app Samples.storeSettings []) OpenAI.newOpenAIService in
  (fst (fst out)).(catalog) = Scenario.catalog
  /\ hd_error (snd out) = Some (GetProducts 20)
  /\ exists question answer,
       (fst (fst out)).(messages) = [question; answer]
       /\ question.(role) = user
       /\ question.(content) = "wireless mouse"
       /\ answer.(role) = assistant
       /\ answer.(products) = None.
Proof.
  apply (first_question_gets_no_cards Scenario.cfg "wireless mouse"
           Samples.clocks Scenario.catalog Samples.world
           (Samples.app Samples.storeSettings []) OpenAI.newOpenAIService);
    reflexivity.
Defined.

End AppChatFacts.

(** ** The product hook and the store URL *)

Module StoreFacts.
Import WooCommerce.

(** X29. In the product hook an error and a product list never stand
    together: in every reachable state, an error means the list is empty,
    and a list with products means no error. A fetch that fails empties the
    list it found, and every settling clears the loading flag. *)
Theorem error_means_no_products :
  forall (options : UseProducts.UseProductsOptions) (st : UseProducts.State),
    UseProducts.reachable options st ->
    (forall text, st.(UseProducts.error) = Some text ->
       st.(UseProducts.products) = [])
    /\ (UseProducts.hasProducts st = true -> st.(UseProducts.error) = None)
    /\ (forall err,
          (UseProducts.fetchProducts_settle (JS.Rejected err) st)
            .(UseProducts.products) = [])
    /\ (forall outcome,
          (UseProducts.fetchProducts_settle outcome st)
            .(UseProducts.isLoading) = false).
Proof.
  intros options st R.
  assert (I : forall text, st.(UseProducts.error) = Some text ->
                st.(UseProducts.products) = []).
  { induction R as [|st a _ IH]; [discriminate|].
    destruct a as [|outcome]; cbn [UseProducts.step].
    - discriminate.
    - destruct outcome; [discriminate | reflexivity]. }
  split; [exact I|]. split; [|split].
  - unfold UseProducts.hasProducts. intros H.
    destruct (UseProducts.error st) as [text|] eqn:E; [|reflexivity].
    rewrite (I text eq_refl) in H. discriminate H.
  - reflexivity.
  - intros outcome. destruct outcome; reflexivity.
Qed.

Lemma error_means_no_products_witness :
  let st :=
    UseProducts.step Samples.productOptions
      (UseProducts.Settle (JS.Rejected (JS.newError "Failed to fetch")))
      (UseProducts.step Samples.productOptions
         (UseProducts.Settle (JS.Fulfilled Scenario.catalog))
         (UseProducts.step Samples.productOptions UseProducts.Begin
            UseProducts.initial)) in
  st.(UseProducts.error) = Some "Failed to fetch"
  /\ st.(UseProducts.products) = [].
Proof.
  intros st. split; [reflexivity|].
  apply (error_means_no_products Samples.productOptions st)
    with (text := "Failed to fetch"); [|reflexivity].
  unfold st. repeat apply UseProducts.reachable_step.
  apply UseProducts.reachable_initial.
Defined.

(** *** The API URL *)

Lemma dropTrailingSlash_slash (url : string) :
  WooCommerceConfig.dropTrailingSlash (url ++ "/") = url.
Proof.
  induction url as [|c url IH]; [reflexivity|].
  change (String c url ++ "/") with (String c (url ++ "/")).
  cbn [WooCommerceConfig.dropTrailingSlash]. rewrite IH.
  destruct url; reflexivity.
Qed.

Lemma dropTrailingSlash_none (url : string) :
  WooCommerceConfig.lastChar url <> Some "/"%char ->
  WooCommerceConfig.dropTrailingSlash url = url.
Proof.
  induction url as [|c url IH]; [reflexivity|].
  cbn [WooCommerceConfig.lastChar WooCommerceConfig.dropTrailingSlash].
  destruct url as [|d url].
  - intros N. destruct (Ascii.eqb c "/") eqn:E; [|reflexivity].
    apply Ascii.eqb_eq in E. now subst c.
  - intros N. now rewrite IH.
Qed.

(** X30. One slash at the end of the store URL makes no difference to the
    API URL: with the slash or without it the URL is the store URL without
    that slash, followed by [/wp-json/wc/v3/] and the endpoint. Only one
    slash is taken away. *)
Theorem api_url_ignores_one_trailing_slash :
  forall (base endpoint key secret : string),
    WooCommerceConfig.lastChar base <> Some "/"%char ->
    let withSlash :=
      {| WooCommerceConfig.storeUrl := base ++ "/";
         WooCommerceConfig.consumerKey := key;
         WooCommerceConfig.consumerSecret := secret |} in
    let without :=
      {| WooCommerceConfig.storeUrl := base;
         WooCommerceConfig.consumerKey := key;
         WooCommerceConfig.consumerSecret := secret |} in
    let twoSlashes :=
      {| WooCommerceConfig.storeUrl := (base ++ "/") ++ "/";
         WooCommerceConfig.consumerKey := key;
         WooCommerceConfig.consumerSecret := secret |} in
    WooCommerceConfig.getWooCommerceApiUrl withSlash endpoint
    = base ++ "/wp-json/wc/v3/" ++ endpoint
    /\ WooCommerceConfig.getWooCommerceApiUrl without endpoint
       = base ++ "/wp-json/wc/v3/" ++ endpoint
    /\ WooCommerceConfig.getWooCommerceApiUrl twoSlashes endpoint
       = (base ++ "/") ++ "/wp-json/wc/v3/" ++ endpoint.
Proof.
  intros base endpoint key secret N withSlash without twoSlashes.
  unfold WooCommerceConfig.getWooCommerceApiUrl.
  cbn [WooCommerceConfig.storeUrl withSlash without twoSlashes].
  rewrite !dropTrailingSlash_slash, (dropTrailingSlash_none base N).
  repeat split.
Qed.

Lemma api_url_ignores_one_trailing_slash_witness :
  WooCommerceConfig.getWooCommerceApiUrl
    {| WooCommerceConfig.storeUrl := "https://shop.example" ++ "/";
       WooCommerceConfig.consumerKey := "ck_1";
       WooCommerceConfig.consumerSecret := "cs_1" |} "products"
  = "https://shop.example" ++ "/wp-json/wc/v3/" ++ "products"
  /\ WooCommerceConfig.getWooCommerceApiUrl Samples.shop "products"
     = "https://shop.example" ++ "/wp-json/wc/v3/" ++ "products"
  /\ WooCommerceConfig.getWooCommerceApiUrl
       {| WooCommerceConfig.storeUrl := ("https://shop.example" ++ "/") ++ "/";
          WooCommerceConfig.consumerKey := "ck_1";
          WooCommerceConfig.consumerSecret := "cs_1" |} "products"
     = ("https://shop.example" ++ "/") ++ "/wp-json/wc/v3/" ++ "products".
Proof.
  apply (api_url_ignores_one_trailing_slash "https://shop.example" "products"
           "ck_1" "cs_1").
  discriminate.
Defined.

End StoreFacts.
